(** * THF enrichment pipeline: a shallow embedding and its properties

    The development follows [improved_enrichment.py] (class
    [ImprovedEnrichmentService]) and the parts of
    [enhanced_apify_enrichment.py] (class [EnhancedApifyEnrichmentService])
    that differ from it.  Python dictionaries are finite maps from strings
    to dynamically typed values, exceptions are an explicit outcome, and the
    outside world (record store, scraping provider, clock) is an oracle that
    the service functions consult while threading a state made of the
    wall clock and a log of the calls they made. *)

From Stdlib Require Import ZArith Ascii String PrimFloat PrimInt63 Uint63.
From Stdlib Require Import SpecFloat FloatOps.
From stdpp Require Import gmap strings list fin_maps.

Set Warnings "-register-all".

Local Open Scope string_scope.
Local Open Scope Z_scope.

(** ** Python values and dictionaries *)

Module Py.

(** The JSON-like values that flow through the service.  JSON numbers are
    integers here. *)
Inductive value : Type :=
  | VNone
  | VBool (b : bool)
  | VInt (n : Z)
  | VStr (s : string)
  | VList (l : list value)
  | VDict (kvs : list (string * value)).

(** Python truthiness, the test of [if x:]. *)
Definition truthy (v : value) : bool :=
  match v with
  | VNone => false
  | VBool b => b
  | VInt n => negb (n =? 0)
  | VStr s => negb (String.eqb s "")
  | VList l => match l with [] => false | _ => true end
  | VDict kvs => match kvs with [] => false | _ => true end
  end.

Abbreviation dict := (gmap string value).

(** [d.get(k)]: the value at [k], [None] when the key is missing. *)
Definition get (d : dict) (k : string) : value := default VNone (d !! k).

(** [d.get(k, dflt)]. *)
Definition get_or (d : dict) (k : string) (dflt : value) : value :=
  default dflt (d !! k).

(** Truthiness of a dictionary: it has at least one key. *)
Definition dict_truthy (d : dict) : bool :=
  match map_to_list d with [] => false | _ => true end.

(** Truthiness of an [Optional[Dict]]. *)
Definition opt_truthy (o : option dict) : bool :=
  match o with Some d => dict_truthy d | None => false end.

(** Truthiness of an [Optional[List[str]]] such as the error list. *)
Definition errors_truthy (o : option (list string)) : bool :=
  match o with Some (_ :: _) => true | _ => false end.

(** [int((filled / total) * 100)] as Python evaluates it: a binary64
    division, a binary64 product, then truncation towards zero.  The
    truncation is found by searching downwards from [bound] for the largest
    integer not above the float, which is [int()] on [0 <= x < bound + 1]. *)
Fixpoint trunc_below (bound : nat) (x : float) : Z :=
  match bound with
  | O => 0
  | S b =>
      if PrimFloat.leb (PrimFloat.of_uint63 (Uint63.of_Z (Z.of_nat bound))) x
      then Z.of_nat bound
      else trunc_below b x
  end.

Definition float_of_Z (n : Z) : float := PrimFloat.of_uint63 (Uint63.of_Z n).

(** [a / b] on positive Python integers: the exact quotient rounded once,
    to the nearest binary64 number (ties to even), whatever the size of
    the operands.  The quotient is taken with at least 56 significant
    bits and a sticky bit for the remainder before it is rounded.  Beyond
    the binary64 range Python raises [OverflowError]; the value is
    infinite here. *)
Definition true_div (a b : Z) : float :=
  let k := Z.max 0 (Z.log2 b - Z.log2 a + 56) in
  let n := a * 2 ^ k in
  let sticky := if n mod b =? 0 then 0 else 1 in
  SF2Prim (binary_normalize prec emax (2 * (n / b) + sticky) (- k - 1) false).

Definition percent_of (filled total : Z) : Z :=
  trunc_below 100
    (PrimFloat.mul (PrimFloat.div (float_of_Z filled) (float_of_Z total))
                   (float_of_Z 100)).

(** A Python call either returns or raises; an exception is kept as its
    [str(e)], the only part of it the service reads. *)
Inductive outcome (A : Type) : Type :=
  | Ok (a : A)
  | Raise (msg : string).
Arguments Ok {A} a.
Arguments Raise {A} msg.

Definition type_name (v : value) : string :=
  match v with
  | VNone => "NoneType"
  | VBool _ => "bool"
  | VInt _ => "int"
  | VStr _ => "str"
  | VList _ => "list"
  | VDict _ => "dict"
  end.

(** [v == s] for a string literal [s]. *)
Definition value_is_str (v : value) (s : string) : bool :=
  match v with VStr s' => String.eqb s' s | _ => false end.

(** [len(name.split(' ', 1)) >= 2]: the string contains a space. *)
Fixpoint has_space (s : string) : bool :=
  match s with
  | EmptyString => false
  | String c rest => if Ascii.eqb c " "%char then true else has_space rest
  end.

(** [s.split(' ', 1)]: the part before the first space, and the rest when
    there is a space. *)
Fixpoint split_first_space (s : string) : string * option string :=
  match s with
  | EmptyString => (EmptyString, None)
  | String c rest =>
      if Ascii.eqb c " "%char then (EmptyString, Some rest)
      else let (a, b) := split_first_space rest in (String c a, b)
  end.

(** [s.replace('Z', '+00:00')]. *)
Fixpoint replace_Z (s : string) : string :=
  match s with
  | EmptyString => EmptyString
  | String c rest =>
      if Ascii.eqb c "Z"%char then "+00:00" +:+ replace_Z rest
      else String c (replace_Z rest)
  end.

(** [v > n] and [v >= n] for an integer literal [n]: defined on numbers
    and booleans, a [TypeError] on anything else. *)
Definition int_of_value (v : value) : option Z :=
  match v with
  | VInt m => Some m
  | VBool b => Some (if b then 1 else 0)
  | _ => None
  end.

Definition py_gt_int (v : value) (n : Z) : outcome bool :=
  match int_of_value v with
  | Some m => Ok (m >? n)
  | None => Raise ("'>' not supported between instances of '"
                   +:+ type_name v +:+ "' and 'int'")
  end.

Definition py_ge_int (v : value) (n : Z) : outcome bool :=
  match int_of_value v with
  | Some m => Ok (m >=? n)
  | None => Raise ("'>=' not supported between instances of '"
                   +:+ type_name v +:+ "' and 'int'")
  end.

(** The order Low < Medium < High on confidence labels. *)
Definition confidence_rank (c : string) : nat :=
  if String.eqb c "High" then 2
  else if String.eqb c "Medium" then 1
  else 0.

(** Whether [percent_of] is the integer floor for every total from 1 to
    [bound] and every count up to the total. *)
Definition percent_table_ok (bound : nat) : bool :=
  forallb (fun t =>
    forallb (fun f =>
      (percent_of (Z.of_nat f) (Z.of_nat t)
       =? 100 * Z.of_nat f / Z.of_nat t))
      (seq 0 (S t)))
    (seq 1 bound).

(** The points a signal contributes, and the three-way bucketing. *)
Definition indicator (present : bool) (points : Z) : Z :=
  if present then points else 0.

Definition bucket (high medium score : Z) : string :=
  if score >=? high then "High"
  else if score >=? medium then "Medium"
  else "Low".

(** How a final status relates to the presence of provider data and of
    errors. *)
Definition status_rule (status : string) (data errs : bool) : Prop :=
  (status = "Partial" <-> data = true /\ errs = true)
  /\ (data = true -> errs = false -> status = "Completed")
  /\ (status = "Completed" -> errs = false)
  /\ (data = false -> errs = true -> status = "Failed")
  /\ (status = "Failed" -> data = false)
  /\ (status = "Completed" \/ status = "Partial" \/ status = "Failed").

End Py.

Import Py.

(** ** The outside world, the state and the effect monad *)

Module Effects.

(** Reply to [POST /acts/{actor_id}/runs] followed by
    [response.json()['data']]: the run (reduced to its id), a
    [RequestException], or any other exception. *)
Inductive run_reply : Type :=
  | RunStarted (run_id : string)
  | RunRequestError
  | RunRaises (msg : string).

(** Reply to [GET /datasets/{id}/items], with the time the round trip
    takes in microseconds.  The items of a dataset are JSON objects. *)
Inductive fetch_reply : Type :=
  | FetchItems (rt : N) (items : list dict)
  | FetchRequestError (rt : N)
  | FetchRaises (rt : N) (msg : string).

(** Reply to one [GET /actor-runs/{run_id}]: the run's [status] together
    with what fetching its dataset would give, a [RequestException], or
    any other exception (such as a reply without ['data']). *)
Inductive status_reply : Type :=
  | StatusIs (rt : N) (status : value) (fetch : fetch_reply)
  | StatusRequestError (rt : N)
  | StatusRaises (rt : N) (msg : string).

(** A page of the enrichment database, as far as the service reads it. *)
Record NotionPage : Type := mkPage {
  page_id : string;
  (* plain_text of the items of properties['Person Name']['title'] *)
  page_title : list string;
  (* plain_text of the items of properties['Original Record ID']['rich_text'] *)
  page_original_id : list string;
  (* properties['Enrichment Status']['select']['name'] *)
  page_status : option string;
  (* properties['Last Updated'] *)
  page_last_updated : option dict;
  (* properties['Data Confidence']['select']['name'] *)
  page_confidence : option string;
  (* properties['Completeness Score']['number'] *)
  page_completeness : option Z;
  (* the names in properties['Data Sources']['multi_select'] *)
  page_data_sources : list string
}.

(** What the service is run against.  The record store answers as the
    Notion API does: the people database and the search for an existing
    record return (they are read, not logged), and a page creation either
    fails with a [RequestException] or answers with the new page and its
    id.  An answer to a page creation without an id, on which the source
    raises [KeyError] out of the attempt, is not among the worlds. *)
Record World : Type := mkWorld {
  (* get_all_people, the search for the id, and extract_person_data *)
  w_person : string -> option dict;
  (* _find_existing_enrichment *)
  w_existing : string -> option NotionPage;
  (* datetime.fromisoformat on an offset-aware string: the instant, in
     microseconds; None when parsing or the later subtraction raises *)
  w_instant : string -> option Z;
  w_json_dumps : dict -> string;
  w_run : string -> run_reply;
  (* the reply to the k-th status check of a run *)
  w_status : string -> nat -> status_reply;
  (* POST /pages: the id of the new page, or None on a RequestException *)
  w_store : option string
}.

(** The same world with another answer from the store. *)
Definition with_store (w : World) (store : option string) : World :=
  mkWorld (w_person w) (w_existing w) (w_instant w) (w_json_dumps w)
    (w_run w) (w_status w) store.

Inductive event : Type :=
  | Dispatch (actor_id : string) (input : dict)
  (* a status check, with the clock reading at which it starts *)
  | StatusCheck (run_id : string) (at_time : Z)
  | DatasetFetch (run_id : string)
  | Sleep (duration : Z)
  (* the five properties every stored page has; the others follow from
     the record *)
  | StorePage (name : value) (rid status confidence : string) (score : Z)
  | LinkPage (person_id page_id : string).

(** The wall clock, in microseconds, and the calls made so far (latest
    first). *)
Record State : Type := mkState {
  clock : Z;
  calls : list event
}.

Definition tick (d : Z) (st : State) : State :=
  mkState (clock st + d) (calls st).

Definition emit (e : event) (st : State) : State :=
  mkState (clock st) (e :: calls st).

(** A service function: it may raise, and the polling loop it may contain
    is run on fuel ([None] when the fuel runs out). *)
Definition M (A : Type) : Type := State -> option (outcome A * State).

Definition ret {A} (a : A) : M A := fun st => Some (Ok a, st).

Definition raise {A} (msg : string) : M A := fun st => Some (Raise msg, st).

Definition bind {A B} (m : M A) (k : A -> M B) : M B :=
  fun st =>
    match m st with
    | Some (Ok a, st') => k a st'
    | Some (Raise msg, st') => Some (Raise msg, st')
    | None => None
    end.

(** [try: m  except Exception as e: h(str(e))]. *)
Definition catch {A} (m : M A) (h : string -> M A) : M A :=
  fun st =>
    match m st with
    | Some (Raise msg, st') => h msg st'
    | other => other
    end.

Definition lift {A} (o : outcome A) : M A := fun st => Some (o, st).

Definition log (e : event) : M unit := fun st => Some (Ok tt, emit e st).

Definition wait (d : Z) : M unit := fun st => Some (Ok tt, tick d st).

Definition now : M Z := fun st => Some (Ok (clock st), st).

Definition is_dispatch (e : event) : bool :=
  match e with Dispatch _ _ => true | _ => false end.

Definition is_status_check (e : event) : bool :=
  match e with StatusCheck _ _ => true | _ => false end.

(** Number of status checks in a log. *)
Definition status_checks (l : list event) : nat :=
  length (List.filter is_status_check l).

Definition dispatches (l : list event) : list event :=
  List.filter is_dispatch l.

Definition is_fetch (e : event) : bool :=
  match e with DatasetFetch _ => true | _ => false end.

(** Number of dataset fetches in a log. *)
Definition dataset_fetches (l : list event) : nat :=
  length (List.filter is_fetch l).

(** A call to the record store: a page creation or a relation update. *)
Definition is_store_call (e : event) : bool :=
  match e with StorePage _ _ _ _ _ | LinkPage _ _ => true | _ => false end.

Definition store_calls (l : list event) : list event :=
  List.filter is_store_call l.

End Effects.

Import Effects.

Notation "'let*' x ':=' m 'in' k" := (bind m (fun x => k))
  (at level 10, x name, m at level 100, k at level 200, only parsing).

(** ** The job poller, shared by both services *)

Module Poller.

Definition second : Z := 1000000.

(** [time.sleep(15)], taken to last exactly fifteen seconds; the clock
    advances during provider calls and sleeps only. *)
Definition poll_interval : Z := 15 * second.

(** [POST /acts/{actor_id}/runs]; [None] on a [RequestException]. *)
Definition _run_apify_actor (w : World) (actor_id : string) (input_data : dict)
    : M (option string) :=
  let* _ := log (Dispatch actor_id input_data) in
  match w_run w actor_id with
  | RunStarted run_id => ret (Some run_id)
  | RunRequestError => ret None
  | RunRaises msg => raise msg
  end.

(** The dataset fetch of the [SUCCEEDED] branch. *)
Definition fetch_results (run_id : string) (fetch : fetch_reply)
    : M (option (list dict)) :=
  let* _ := log (DatasetFetch run_id) in
  match fetch with
  | FetchItems rt items => let* _ := wait (Z.of_N rt) in ret (Some items)
  | FetchRequestError rt => let* _ := wait (Z.of_N rt) in ret None
  | FetchRaises rt msg => let* _ := wait (Z.of_N rt) in raise msg
  end.

Definition failure_statuses : list string := ["FAILED"; "ABORTED"; "TIMED-OUT"].

(** The [while] loop of [_get_actor_results], from its [k]-th iteration
    on; [start_time] is the clock read before the loop. *)
Fixpoint poll_loop (fuel : nat) (w : World) (run_id : string)
    (start_time max_wait_time : Z) (k : nat) : M (option (list dict)) :=
  match fuel with
  | O => fun _ => None
  | S fuel' =>
      let* t := now in
      if t - start_time <? max_wait_time * second then
        let* _ := log (StatusCheck run_id t) in
        match w_status w run_id k with
        | StatusRequestError rt => let* _ := wait (Z.of_N rt) in ret None
        | StatusRaises rt msg => let* _ := wait (Z.of_N rt) in raise msg
        | StatusIs rt status fetch =>
            let* _ := wait (Z.of_N rt) in
            if value_is_str status "SUCCEEDED" then fetch_results run_id fetch
            else if existsb (value_is_str status) failure_statuses then ret None
            else
              let* _ := log (Sleep poll_interval) in
              let* _ := wait poll_interval in
              poll_loop fuel' w run_id start_time max_wait_time (S k)
        end
      else ret None
  end.

(** Fuel that covers every iteration the loop can start. *)
Definition poll_fuel (max_wait_time : Z) : nat :=
  Z.to_nat (max_wait_time / 15) + 2.

Definition _get_actor_results (w : World) (run_id : string)
    (max_wait_time : Z) : M (option (list dict)) :=
  let* start_time := now in
  poll_loop (poll_fuel max_wait_time) w run_id start_time max_wait_time 0.

(** The time one iteration spends on the provider: the status check and,
    when the run has succeeded, the dataset fetch. *)
Definition fetch_time (f : fetch_reply) : Z :=
  match f with
  | FetchItems rt _ | FetchRequestError rt | FetchRaises rt _ => Z.of_N rt
  end.

Definition round_trip (r : status_reply) : Z :=
  match r with
  | StatusIs rt status fetch =>
      Z.of_N rt
      + (if value_is_str status "SUCCEEDED" then fetch_time fetch else 0)
  | StatusRequestError rt | StatusRaises rt _ => Z.of_N rt
  end.

(** **** Non-fatal ways for a poll to fail *)

(** The run is neither finished nor failed at this check: the loop sleeps
    and checks again. *)
Definition is_pending (r : status_reply) : bool :=
  match r with
  | StatusIs _ status _ =>
      negb (value_is_str status "SUCCEEDED")
      && negb (existsb (value_is_str status) failure_statuses)
  | _ => false
  end.

Definition status_time (r : status_reply) : Z :=
  match r with
  | StatusIs rt _ _ | StatusRequestError rt | StatusRaises rt _ => Z.of_N rt
  end.

(** Time on the loop's clock when its [k]-th iteration starts, all earlier
    checks having found the run pending. *)
Fixpoint elapsed_before (w : World) (run_id : string) (k : nat) : Z :=
  match k with
  | O => 0
  | S j =>
      elapsed_before w run_id j + status_time (w_status w run_id j)
      + poll_interval
  end.

Inductive failure_kind : Type :=
  | StatusCheckFailed   (* the status call raised a RequestException *)
  | JobFailed           (* the run is FAILED, ABORTED or TIMED-OUT *)
  | LocalTimeout.       (* max_wait_time elapsed *)

(** The poll for [run_id] fails in iteration [k], in the given way. *)
Definition fails_at (w : World) (run_id : string) (max_wait_time : Z)
    (k : nat) (kind : failure_kind) : Prop :=
  (forall j, (j < k)%nat ->
     is_pending (w_status w run_id j) = true
     /\ elapsed_before w run_id j < max_wait_time * second)
  /\ match kind with
     | StatusCheckFailed =>
         elapsed_before w run_id k < max_wait_time * second
         /\ exists rt, w_status w run_id k = StatusRequestError rt
     | JobFailed =>
         elapsed_before w run_id k < max_wait_time * second
         /\ exists rt status fetch,
              w_status w run_id k = StatusIs rt status fetch
              /\ existsb (value_is_str status) failure_statuses = true
     | LocalTimeout =>
         max_wait_time * second <= elapsed_before w run_id k
     end.

(** Status checks made by a poll that fails in iteration [k]. *)
Definition checks_made (kind : failure_kind) (k : nat) : nat :=
  match kind with
  | LocalTimeout => k
  | _ => S k
  end.

(** What the poll returns once the run is found [SUCCEEDED], by the reply
    to the dataset fetch. *)
Definition fetch_outcome (fetch : fetch_reply)
    : outcome (option (list dict)) :=
  match fetch with
  | FetchItems _ items => Ok (Some items)
  | FetchRequestError _ => Ok None
  | FetchRaises _ msg => Raise msg
  end.

(** What a poll of [run_id] may log: status checks and dataset fetches of
    that run, and sleeps of one poll interval. *)
Definition poll_event (run_id : string) (e : event) : bool :=
  match e with
  | StatusCheck r _ => String.eqb r run_id
  | DatasetFetch r => String.eqb r run_id
  | Sleep d => d =? poll_interval
  | _ => false
  end.

(** The run is found [SUCCEEDED] at check [k], started within the wait,
    every earlier check having found it pending, and the dataset fetch
    answers as [fetch]. *)
Definition succeeds_at (w : World) (run_id : string) (max_wait_time : Z)
    (k : nat) (fetch : fetch_reply) : Prop :=
  (forall j, (j < k)%nat ->
     is_pending (w_status w run_id j) = true
     /\ elapsed_before w run_id j < max_wait_time * second)
  /\ elapsed_before w run_id k < max_wait_time * second
  /\ exists rt, w_status w run_id k = StatusIs rt (VStr "SUCCEEDED") fetch.

End Poller.

Import Poller.

(** ** The improved service: data model and scoring *)

Module Improved.

(** The [EnrichmentRecord] dataclass.  [person_name] is whatever
    [person_data.get('name', 'Unknown')] returned, so it is a value. *)
Record EnrichmentRecord : Type := mkRecord {
  person_name : value;
  original_record_id : string;
  apollo_data : option dict;
  linkedin_data : option dict;
  enrichment_status : string;
  data_confidence : string;
  completeness_score : Z;
  errors : option (list string)
}.

(** [EnrichmentRecord(person_name, original_record_id, ...)] with the
    dataclass defaults for the fields that are not given. *)
Definition new_record (name : value) (rid : string) (status : string)
    (errs : option (list string)) : EnrichmentRecord :=
  mkRecord name rid None None status "Medium" 0 errs.

Definition apollo_fields : list string :=
  ["email"; "phone"; "title"; "company"; "city"; "linkedin_url"].

Definition linkedin_fields : list string :=
  ["headline"; "summary"; "location"; "experience"; "education"; "skills"].

(** One [for field in fields:] loop of [_calculate_completeness], run on
    the counters [(total_fields, filled_fields)]. *)
Definition count_fields (data : dict) (fields : list string)
    (counters : Z * Z) : Z * Z :=
  foldl (fun c field =>
           (fst c + 1,
            if truthy (get data field) then snd c + 1 else snd c))
        counters fields.

Definition count_provider (data : option dict) (fields : list string)
    (counters : Z * Z) : Z * Z :=
  match data with
  | Some d => if dict_truthy d then count_fields d fields counters else counters
  | None => counters
  end.

Definition _calculate_completeness (record : EnrichmentRecord) : Z :=
  let c0 := (0, 0) in
  let c1 := count_provider (apollo_data record) apollo_fields c0 in
  let c2 := count_provider (linkedin_data record) linkedin_fields c1 in
  let total_fields := fst c2 in
  let filled_fields := snd c2 in
  if total_fields >? 0 then percent_of filled_fields total_fields else 0.

(** The checklist the score is taken over, read off the specification: the
    values of the fixed per-provider fields, for the providers whose data
    is counted. *)
Definition provider_checklist (data : option dict) (fields : list string)
    : list value :=
  if opt_truthy data
  then (fun d => get d <$> fields) (default ∅ data)
  else [].

Definition checklist (record : EnrichmentRecord) : list value :=
  provider_checklist (apollo_data record) apollo_fields
  ++ provider_checklist (linkedin_data record) linkedin_fields.

Definition total_checklist_count (record : EnrichmentRecord) : Z :=
  Z.of_nat (length (checklist record)).

Definition filled_count (record : EnrichmentRecord) : Z :=
  Z.of_nat (length (filter (fun v => truthy v = true) (checklist record))).

(** *** The service functions *)

Definition apollo_actor_id : string := "jljBwyyQakqrL1wae".
Definition linkedin_actor_id : string := "PEgClm7RgRD7YO94b".

Definition set_apollo_data (r : EnrichmentRecord) (d : option dict) :=
  mkRecord (person_name r) (original_record_id r) d (linkedin_data r)
    (enrichment_status r) (data_confidence r) (completeness_score r) (errors r).

Definition set_linkedin_data (r : EnrichmentRecord) (d : option dict) :=
  mkRecord (person_name r) (original_record_id r) (apollo_data r) d
    (enrichment_status r) (data_confidence r) (completeness_score r) (errors r).

Definition set_status (r : EnrichmentRecord) (s : string) :=
  mkRecord (person_name r) (original_record_id r) (apollo_data r)
    (linkedin_data r) s (data_confidence r) (completeness_score r) (errors r).

Definition set_confidence (r : EnrichmentRecord) (c : string) :=
  mkRecord (person_name r) (original_record_id r) (apollo_data r)
    (linkedin_data r) (enrichment_status r) c (completeness_score r) (errors r).

Definition set_completeness (r : EnrichmentRecord) (n : Z) :=
  mkRecord (person_name r) (original_record_id r) (apollo_data r)
    (linkedin_data r) (enrichment_status r) (data_confidence r) n (errors r).

(** [if not record.errors: record.errors = []] then
    [record.errors.append(error_msg)]. *)
Definition append_error (r : EnrichmentRecord) (error_msg : string) :=
  let current := match errors r with Some (e :: es) => e :: es | _ => [] end in
  mkRecord (person_name r) (original_record_id r) (apollo_data r)
    (linkedin_data r) (enrichment_status r) (data_confidence r)
    (completeness_score r) (Some (current ++ [error_msg])%list).

Definition microseconds_per_day : Z := 86400 * 1000000.

(** The age test of the staleness gate; [now_us] is
    [datetime.now().astimezone()].  Everything from [.replace] on is inside
    the [try], so a value that is not a string, a string that does not
    parse and a naive timestamp all end in [return True]. *)
Definition _should_update_enrichment (w : World) (now_us : Z)
    (existing_record : NotionPage) : bool :=
  match page_last_updated existing_record with
  | None => true
  | Some last_enriched =>
      if negb (dict_truthy last_enriched
               && truthy (get last_enriched "last_edited_time"))
      then true
      else
        match get last_enriched "last_edited_time" with
        | VStr last_update_str =>
            match w_instant w (replace_Z last_update_str) with
            | Some last_update =>
                let days_since_update :=
                  (now_us - last_update) / microseconds_per_day in
                days_since_update >? 30
            | None => true
            end
        | _ => true
        end
  end.

Definition _extract_enrichment_record (notion_page : NotionPage)
    : EnrichmentRecord :=
  let person_name :=
    match page_title notion_page with t :: _ => t | [] => "" end in
  let original_id :=
    match page_original_id notion_page with t :: _ => t | [] => "" end in
  let status :=
    match page_status notion_page with Some n => n | None => "Unknown" end in
  new_record (VStr person_name) original_id status None.

Definition _prepare_apollo_search (person_data : dict)
    : outcome (option dict) :=
  let search_criteria : dict := ∅ in
  let name := get_or person_data "name" (VStr "") in
  match
    (if truthy name then
       match name with
       | VStr n =>
           Ok (if has_space n then <["person_name" := name]> search_criteria
               else search_criteria)
       | _ => Raise ("'" +:+ type_name name
                     +:+ "' object has no attribute 'split'")
       end
     else Ok search_criteria)
  with
  | Raise msg => Raise msg
  | Ok c1 =>
      let c2 := if truthy (get person_data "employer")
                then <["organization_names" :=
                         VList [get person_data "employer"]]> c1 else c1 in
      let c3 := if truthy (get person_data "position")
                then <["person_titles" :=
                         VList [get person_data "position"]]> c2 else c2 in
      let c4 := if truthy (get person_data "primary_email")
                then <["email" := get person_data "primary_email"]> c3
                else c3 in
      if negb (dict_truthy c4) then Ok None
      else Ok (Some ({[ "searchCriteria" := VDict (map_to_list c4);
                        "maxResults" := VInt 5;
                        "includeEmails" := VBool true;
                        "includePhoneNumbers" := VBool true ]} : dict))
  end.

Definition _process_apollo_results (w : World) (results : list dict) : dict :=
  match results with
  | [] => ∅
  | best_match :: _ =>
      list_to_map [ ("raw_data", VStr (w_json_dumps w best_match));
         ("email", get best_match "email");
         ("personal_email", get best_match "personal_email");
         ("phone", get best_match "phone_number");
         ("mobile", get best_match "mobile_phone_number");
         ("title", get best_match "title");
         ("company", get best_match "organization_name");
         ("industry", get best_match "industry");
         ("city", get best_match "city");
         ("state", get best_match "state");
         ("country", get best_match "country");
         ("linkedin_url", get best_match "linkedin_url");
         ("company_size", get best_match "organization_num_employees");
         ("department", get best_match "department");
         ("seniority", get best_match "seniority") ]
  end.

Definition _run_apollo_enrichment_safe (w : World) (person_data : dict)
    : M (option dict) :=
  let* apollo_input := lift (_prepare_apollo_search person_data) in
  match apollo_input with
  | None => ret None
  | Some input =>
      if negb (dict_truthy input) then ret None else
      let* run_response := _run_apify_actor w apollo_actor_id input in
      match run_response with
      | None => ret None
      | Some run_id =>
          let* results := _get_actor_results w run_id 180 in
          match results with
          | Some (r :: rs) => ret (Some (_process_apollo_results w (r :: rs)))
          | _ => ret None
          end
      end
  end.

Definition linkedin_input (linkedin_url : value) : dict :=
  {[ "profileUrls" := VList [linkedin_url];
     "includeContacts" := VBool true;
     "includeSkills" := VBool true;
     "includeExperience" := VBool true;
     "includeEducation" := VBool true ]}.

Definition _run_linkedin_enrichment_safe (w : World) (person_data : dict)
    : M (option dict) :=
  let linkedin_url := get person_data "linkedin" in
  if negb (truthy linkedin_url) then ret None else
  let* run_response :=
    _run_apify_actor w linkedin_actor_id (linkedin_input linkedin_url) in
  match run_response with
  | None => ret None
  | Some run_id =>
      let* results := _get_actor_results w run_id 180 in
      match results with
      | Some (r :: _) => ret (Some r)
      | _ => ret None
      end
  end.

Definition _assess_data_confidence (record : EnrichmentRecord) : string :=
  let s0 := 0 in
  let s1 :=
    match apollo_data record with
    | Some d =>
        if dict_truthy d then
          let a := if truthy (get d "email") then s0 + 30 else s0 in
          let b := if truthy (get d "phone") then a + 20 else a in
          if truthy (get d "company") then b + 10 else b
        else s0
    | None => s0
    end in
  let confidence_score :=
    match linkedin_data record with
    | Some d =>
        if dict_truthy d then
          let a := if truthy (get d "headline") then s1 + 15 else s1 in
          let b := if truthy (get d "experience") then a + 15 else a in
          if truthy (get d "education") then b + 10 else b
        else s1
    | None => s1
    end in
  if confidence_score >=? 70 then "High"
  else if confidence_score >=? 40 then "Medium"
  else "Low".

(** Step 7 of [enrich_person_complete]. *)
Definition final_status (record : EnrichmentRecord) : string :=
  if errors_truthy (errors record) then
    if opt_truthy (apollo_data record) || opt_truthy (linkedin_data record)
    then "Partial" else "Failed"
  else "Completed".

(** [_store_enrichment_record]: the page is built from the record and
    posted; the result is [page_info['id']] of the answer, [None] on a
    [RequestException]. *)
Definition _store_enrichment_record (w : World) (record : EnrichmentRecord)
    : M (option string) :=
  let* _ := log (StorePage (person_name record) (original_record_id record)
                   (enrichment_status record) (data_confidence record)
                   (completeness_score record)) in
  ret (w_store w).

Definition _link_to_people_db (person_id enrichment_page_id : string)
    : M unit :=
  log (LinkPage person_id enrichment_page_id).

(** Steps 4 and 5: one provider, inside its [try]/[except]. *)
Definition apollo_step (w : World) (person_data : dict)
    (record : EnrichmentRecord) : M EnrichmentRecord :=
  if truthy (get person_data "primary_email")
     || truthy (get person_data "employer")
  then
    catch
      (let* data := _run_apollo_enrichment_safe w person_data in
       ret (set_apollo_data record data))
      (fun msg =>
         ret (append_error record ("Apollo enrichment failed: " +:+ msg)))
  else ret record.

Definition linkedin_step (w : World) (person_data : dict)
    (record : EnrichmentRecord) : M EnrichmentRecord :=
  if truthy (get person_data "linkedin")
  then
    catch
      (let* data := _run_linkedin_enrichment_safe w person_data in
       ret (set_linkedin_data record data))
      (fun msg =>
         ret (append_error record ("LinkedIn enrichment failed: " +:+ msg)))
  else ret record.

(** The two provider pipelines, side by side. *)
Inductive provider : Type := ContactProvider | ProfileProvider.

Definition provider_step (p : provider) :=
  match p with
  | ContactProvider => apollo_step
  | ProfileProvider => linkedin_step
  end.

Definition provider_data (p : provider) (r : EnrichmentRecord) : option dict :=
  match p with
  | ContactProvider => apollo_data r
  | ProfileProvider => linkedin_data r
  end.

Definition provider_actor (p : provider) : string :=
  match p with
  | ContactProvider => apollo_actor_id
  | ProfileProvider => linkedin_actor_id
  end.

(** The job request the step submits for a person, when it submits one. *)
Definition provider_request (p : provider) (person_data : dict)
    : option dict :=
  match p with
  | ContactProvider =>
      if truthy (get person_data "primary_email")
         || truthy (get person_data "employer")
      then match _prepare_apollo_search person_data with
           | Ok (Some input) => Some input
           | _ => None
           end
      else None
  | ProfileProvider =>
      if truthy (get person_data "linkedin")
      then Some (linkedin_input (get person_data "linkedin"))
      else None
  end.

(** Steps 3 to 9: the attempt proper, once the gate has let it through. *)
Definition run_enrichment (w : World) (person_id : string)
    (person_data : dict) : M EnrichmentRecord :=
  let person_name := get_or person_data "name" (VStr "Unknown") in
  let r0 := new_record person_name person_id "In Progress" None in
  let* r1 := apollo_step w person_data r0 in
  let* r2 := linkedin_step w person_data r1 in
  let r3 := set_completeness r2 (_calculate_completeness r2) in
  let r4 := set_confidence r3 (_assess_data_confidence r3) in
  let r5 := set_status r4 (final_status r4) in
  let* enrichment_page_id := _store_enrichment_record w r5 in
  let* _ :=
    match enrichment_page_id with
    | Some page => if negb (String.eqb page "")
                   then _link_to_people_db person_id page else ret tt
    | None => ret tt
    end in
  ret r5.

(** Steps 6 and 7 applied to the record the two provider steps left. *)
Definition scored (r2 : EnrichmentRecord) : EnrichmentRecord :=
  let r3 := set_completeness r2 (_calculate_completeness r2) in
  let r4 := set_confidence r3 (_assess_data_confidence r3) in
  set_status r4 (final_status r4).

(** The last-modified timestamp of a stored page as the gate reads it:
    absent when the page has no [Last Updated] property, when the
    property has no non-empty [last_edited_time] string, or when the
    string does not parse. *)
Definition last_modified (w : World) (page : NotionPage) : option Z :=
  match page_last_updated page with
  | Some last_enriched =>
      match get last_enriched "last_edited_time" with
      | VStr s => if String.eqb s "" then None else w_instant w (replace_Z s)
      | _ => None
      end
  | None => None
  end.

(** Age of a timestamp in whole elapsed days, [timedelta.days]. *)
Definition age_in_days (now_us t : Z) : Z :=
  (now_us - t) / microseconds_per_day.

(** The signals the confidence assessment looks at, with their points. *)
Inductive signal : Type :=
  | ContactEmail | ContactPhone | ContactCompany
  | ProfileHeadline | ProfileExperience | ProfileEducation.

Definition signal_points (s : signal) : Z :=
  match s with
  | ContactEmail => 30
  | ContactPhone => 20
  | ContactCompany => 10
  | ProfileHeadline => 15
  | ProfileExperience => 15
  | ProfileEducation => 10
  end.

Definition field_present (data : option dict) (field : string) : bool :=
  match data with
  | Some d => dict_truthy d && truthy (get d field)
  | None => false
  end.

Definition signal_present (r : EnrichmentRecord) (s : signal) : bool :=
  match s with
  | ContactEmail => field_present (apollo_data r) "email"
  | ContactPhone => field_present (apollo_data r) "phone"
  | ContactCompany => field_present (apollo_data r) "company"
  | ProfileHeadline => field_present (linkedin_data r) "headline"
  | ProfileExperience => field_present (linkedin_data r) "experience"
  | ProfileEducation => field_present (linkedin_data r) "education"
  end.

Definition all_signals : list signal :=
  [ContactEmail; ContactPhone; ContactCompany;
   ProfileHeadline; ProfileExperience; ProfileEducation].

(** The points of the signals a record has. *)
Definition signal_total (r : EnrichmentRecord) : Z :=
  foldr (fun s acc => indicator (signal_present r s) (signal_points s) + acc)
        0 all_signals.

(** Whether a record carries data of at least one provider, and whether
    its error list has an entry. *)
Definition has_data (r : EnrichmentRecord) : bool :=
  opt_truthy (apollo_data r) || opt_truthy (linkedin_data r).

Definition has_errors (r : EnrichmentRecord) : bool :=
  errors_truthy (errors r).

Definition enrich_person_complete (w : World) (person_id : string)
    : M EnrichmentRecord :=
  match w_person w person_id with
  | None =>
      ret (new_record (VStr "Unknown") person_id "Not Started"
             (Some ["Person not found"]))
  | Some person_data =>
      match w_existing w person_id with
      | Some existing_record =>
          let* t := now in
          if negb (_should_update_enrichment w t existing_record)
          then ret (_extract_enrichment_record existing_record)
          else run_enrichment w person_id person_data
      | None => run_enrichment w person_id person_data
      end
  end.

(** What a provider step keeps of a fetched dataset: nothing when it is
    empty, else its first item, normalised for the contact provider and
    as it is for the profile provider. *)
Definition provider_result (p : provider) (w : World) (items : list dict)
    : option dict :=
  match items with
  | [] => None
  | first :: _ =>
      Some match p with
           | ContactProvider => _process_apollo_results w items
           | ProfileProvider => first
           end
  end.

(** The keys of a contact provider's raw result that feed the
    completeness checklist, in checklist order. *)
Definition raw_checklist_keys : list string :=
  ["email"; "phone_number"; "title"; "organization_name"; "city";
   "linkedin_url"].


(** The jobs an attempt submits for a person, latest first. *)
Definition requested_jobs (person_data : dict) : list event :=
  (match provider_request ProfileProvider person_data with
   | Some input => [Dispatch linkedin_actor_id input]
   | None => []
   end
   ++
   match provider_request ContactProvider person_data with
   | Some input => [Dispatch apollo_actor_id input]
   | None => []
   end)%list.

(** The page creation an attempt makes for the record it returns. *)
Definition store_call (r : EnrichmentRecord) : event :=
  StorePage (person_name r) (original_record_id r) (enrichment_status r)
    (data_confidence r) (completeness_score r).

(** The relation update that follows, when the store gave a page id. *)
Definition link_calls (w : World) (person_id : string) : list event :=
  match w_store w with
  | Some page =>
      if negb (String.eqb page "") then [LinkPage person_id page] else []
  | None => []
  end.

Definition apollo_error (msg : string) : string :=
  "Apollo enrichment failed: " +:+ msg.

Definition linkedin_error (msg : string) : string :=
  "LinkedIn enrichment failed: " +:+ msg.

(** The gate lets the attempt for [person_id] run: there is no stored
    record, or the stored one is stale. *)
Definition gate_passes (w : World) (person_id : string) (st : State) : bool :=
  match w_existing w person_id with
  | Some existing_record =>
      _should_update_enrichment w (clock st) existing_record
  | None => true
  end.

End Improved.

(** ** The enhanced service: what differs from the improved one *)

Module Enhanced.

Record NetworkConnection : Type := mkConnection {
  name : string;
  title : option string;
  company : option string;
  industry : option string;
  location : option string;
  mutual_connections : Z;
  profile_url : option string
}.

Record EnhancedEnrichmentRecord : Type := mkEnhanced {
  person_name : value;
  original_record_id : string;
  apollo_data : option dict;
  linkedin_data : option dict;
  linkedin_connections : option (list NetworkConnection);
  network_analysis : option dict;
  external_data_sources : option (list string);
  enrichment_status : string;
  data_confidence : string;
  completeness_score : Z;
  errors : option (list string)
}.

Definition set_apollo_data (r : EnhancedEnrichmentRecord) (d : option dict) :=
  mkEnhanced (person_name r) (original_record_id r) d (linkedin_data r)
    (linkedin_connections r) (network_analysis r) (external_data_sources r)
    (enrichment_status r) (data_confidence r) (completeness_score r) (errors r).

Definition set_status (r : EnhancedEnrichmentRecord) (s : string) :=
  mkEnhanced (person_name r) (original_record_id r) (apollo_data r)
    (linkedin_data r) (linkedin_connections r) (network_analysis r)
    (external_data_sources r) s (data_confidence r) (completeness_score r)
    (errors r).

(** [record.external_data_sources.append(source)]; the list was created
    empty with the record. *)
Definition append_source (r : EnhancedEnrichmentRecord) (source : string) :=
  mkEnhanced (person_name r) (original_record_id r) (apollo_data r)
    (linkedin_data r) (linkedin_connections r) (network_analysis r)
    (Some (default [] (external_data_sources r) ++ [source])%list)
    (enrichment_status r) (data_confidence r) (completeness_score r) (errors r).

Definition _add_error (r : EnhancedEnrichmentRecord) (error : string) :=
  let current := match errors r with Some (e :: es) => e :: es | _ => [] end in
  mkEnhanced (person_name r) (original_record_id r) (apollo_data r)
    (linkedin_data r) (linkedin_connections r) (network_analysis r)
    (external_data_sources r) (enrichment_status r) (data_confidence r)
    (completeness_score r) (Some (current ++ [error])%list).

(** [criteria[k] = v] when [cond] holds. *)
Definition put_if (cond : bool) (k : string) (v : value) (criteria : dict)
    : dict :=
  if cond then <[k := v]> criteria else criteria.

Definition military_keywords : value :=
  VList [VStr "veteran"; VStr "military"; VStr "navy"; VStr "army";
         VStr "air force"; VStr "marines"].

Definition _build_comprehensive_apollo_search (person_data : dict)
    : outcome dict :=
  let criteria : dict := ∅ in
  let pget := get person_data in
  match
    (if truthy (pget "name") then
       match pget "name" with
       | VStr n =>
           let (first, rest) := split_first_space n in
           Ok (<["last_name" := VStr (default "" rest)]>
                 (<["first_name" := VStr first]> criteria))
       | other => Raise ("'" +:+ type_name other
                         +:+ "' object has no attribute 'split'")
       end
     else Ok criteria)
  with
  | Raise msg => Raise msg
  | Ok c1 =>
      let c2 := put_if (truthy (pget "employer")) "organization_names"
                  (VList [pget "employer"]) c1 in
      let c3 := put_if (truthy (pget "position")) "person_titles"
                  (VList [pget "position"]) c2 in
      let c4 := put_if (truthy (pget "primary_email")) "email"
                  (pget "primary_email") c3 in
      let c5 := put_if (truthy (pget "city")) "person_locations"
                  (VList [pget "city"]) c4 in
      match
        (if truthy (pget "state") then
           match c5 !! "person_locations" with
           | None => Raise "'person_locations'"
           | Some (VList l) =>
               Ok (<["person_locations" := VList (l ++ [pget "state"])]> c5)
           | Some other => Raise ("'" +:+ type_name other
                                  +:+ "' object has no attribute 'append'")
           end
         else Ok c5)
      with
      | Raise msg => Raise msg
      | Ok c6 =>
          let c7 := put_if (truthy (pget "industry")) "organization_industries"
                      (VList [pget "industry"]) c6 in
          let c8 := put_if (truthy (pget "undergrad_school")) "education"
                      (VList [pget "undergrad_school"]) c7 in
          Ok (put_if (truthy (pget "military")) "keywords"
                military_keywords c8)
      end
  end.

Definition all_true (keys : list string) : value :=
  VDict ((fun k => (k, VBool true)) <$> keys).

Definition enhanced_apollo_input (criteria : dict) : dict :=
  {[ "searchCriteria" := VDict (map_to_list criteria);
     "dataEnrichment" :=
       all_true ["includeEmails"; "includePhoneNumbers";
                 "includeEmploymentHistory"; "includeEducation";
                 "includeTechnographics"; "includeIntentData";
                 "includeFundingData"; "includeNewsAndSocial";
                 "includePatentsAndPublications"; "includeBoardPositions";
                 "includeSpeakingEngagements";
                 "includeExternalCertifications"];
     "externalDataSources" :=
       all_true ["enableCrunchbase"; "enableZoomInfo";
                 "enableBusinessRegistries"; "enableSocialMediaAggregation";
                 "enableNewsAPI"; "enablePatentDatabases"; "enableSecFilings";
                 "enablePressReleases"];
     "verificationLevel" := VStr "strict";
     "maxResults" := VInt 10 ]}.

Definition _process_enhanced_apollo_results (w : World) (results : list dict)
    : dict :=
  match results with
  | [] => ∅
  | best_match :: _ =>
      let g := get best_match in
      let gd := get_or best_match in
      list_to_map
        [ ("raw_data", VStr (w_json_dumps w best_match));
          ("email", g "email");
          ("personal_email", g "personal_email");
          ("phone", g "phone_number");
          ("mobile", g "mobile_phone_number");
          ("email_verified", gd "email_verified" (VBool false));
          ("phone_verified", gd "phone_verified" (VBool false));
          ("email_source", gd "email_source" (VStr "Unknown"));
          ("phone_source", gd "phone_source" (VStr "Unknown"));
          ("title", g "title");
          ("company", g "organization_name");
          ("industry", g "industry");
          ("department", g "department");
          ("seniority", g "seniority");
          ("city", g "city");
          ("state", g "state");
          ("country", g "country");
          ("linkedin_url", g "linkedin_url");
          ("company_size", g "organization_num_employees");
          ("revenue_range", g "organization_annual_revenue");
          ("funding_stage", g "organization_funding_stage");
          ("employee_headcount_change", g "organization_headcount_change");
          ("technographics", gd "organization_technologies" (VList []));
          ("intent_data", g "intent_signals");
          ("news_mentions", gd "news_mentions_count" (VInt 0));
          ("social_media_presence", gd "social_media_profiles" (VList []));
          ("patent_count", gd "patent_count" (VInt 0));
          ("press_releases", gd "press_releases" (VList []));
          ("event_participation", gd "event_participation" (VList []));
          ("board_positions", gd "board_positions" (VList []));
          ("advisory_roles", gd "advisory_roles" (VList []));
          ("speaking_engagements", gd "speaking_engagements" (VList []));
          ("external_certifications", gd "external_certifications" (VList []));
          ("publications", gd "publications" (VList [])) ]
  end.

Definition _run_enhanced_apollo_enrichment (w : World) (person_data : dict)
    : M dict :=
  let* criteria := lift (_build_comprehensive_apollo_search person_data) in
  let apollo_input := enhanced_apollo_input criteria in
  let* run_response := _run_apify_actor w Improved.apollo_actor_id apollo_input in
  match run_response with
  | None => ret ∅
  | Some run_id =>
      let* results := _get_actor_results w run_id 300 in
      match results with
      | Some (r :: rs) => ret (_process_enhanced_apollo_results w (r :: rs))
      | _ => ret ∅
      end
  end.

(** Phase 1 of [comprehensive_enrich_person]; no later phase writes
    [apollo_data]. *)
Definition apollo_phase (w : World) (person_data : dict)
    (record : EnhancedEnrichmentRecord) : M EnhancedEnrichmentRecord :=
  if truthy (get person_data "primary_email")
     || truthy (get person_data "employer")
  then
    catch
      (let* data := _run_enhanced_apollo_enrichment w person_data in
       ret (append_source (set_apollo_data record (Some data)) "Apollo"))
      (fun msg =>
         ret (_add_error record ("Apollo enrichment failed: " +:+ msg)))
  else ret record.

(** The record [comprehensive_enrich_person] starts from. *)
Definition initial_record (person_data : dict) (person_id : string)
    : EnhancedEnrichmentRecord :=
  mkEnhanced (get_or person_data "name" (VStr "Unknown")) person_id
    None None None None (Some []) "In Progress" "Medium" 0 None.

(** [score + points] when the test holds; a test that raises makes the
    whole assessment raise. *)
Definition add_when (test : outcome bool) (points : Z) (score : outcome Z)
    : outcome Z :=
  match score with
  | Raise msg => Raise msg
  | Ok s =>
      match test with
      | Raise msg => Raise msg
      | Ok b => Ok (if b then s + points else s)
      end
  end.

Definition _assess_enhanced_confidence (record : EnhancedEnrichmentRecord)
    : outcome string :=
  let s0 := Ok 0 in
  let s1 :=
    match apollo_data record with
    | Some d =>
        if dict_truthy d then
          add_when (py_gt_int (get_or d "news_mentions" (VInt 0)) 0) 5
            (add_when (Ok (truthy (get d "intent_data"))) 10
               (add_when (Ok (truthy (get d "phone_verified"))) 20
                  (add_when (Ok (truthy (get d "email_verified"))) 25 s0)))
        else s0
    | None => s0
    end in
  let s2 :=
    match linkedin_data record with
    | Some d =>
        if dict_truthy d then
          add_when (py_ge_int (get_or d "connections" (VInt 0)) 100) 10
            (add_when (py_ge_int (get_or d "experience_count" (VInt 0)) 2) 15
               s1)
        else s1
    | None => s1
    end in
  let s3 :=
    match linkedin_connections record with
    | Some (c :: cs) =>
        add_when (Ok (Z.of_nat (length (c :: cs)) >=? 20)) 15 s2
    | _ => s2
    end in
  match s3 with
  | Raise msg => Raise msg
  | Ok confidence_score =>
      Ok (if confidence_score >=? 80 then "High"
          else if confidence_score >=? 50 then "Medium"
          else "Low")
  end.

(** The signals of the enhanced assessment, with their points.  A
    comparison that would raise counts as absent; it makes the assessment
    itself raise. *)
Inductive signal : Type :=
  | EmailVerified | PhoneVerified | IntentData | NewsMentions
  | ExperienceDepth | ConnectionCount | NetworkDepth.

Definition signal_points (s : signal) : Z :=
  match s with
  | EmailVerified => 25
  | PhoneVerified => 20
  | IntentData => 10
  | NewsMentions => 5
  | ExperienceDepth => 15
  | ConnectionCount => 10
  | NetworkDepth => 15
  end.

Definition holds (test : outcome bool) : bool :=
  match test with Ok b => b | Raise _ => false end.

Definition data_test (data : option dict) (test : dict -> bool) : bool :=
  match data with
  | Some d => dict_truthy d && test d
  | None => false
  end.

Definition signal_present (r : EnhancedEnrichmentRecord) (s : signal) : bool :=
  match s with
  | EmailVerified =>
      data_test (apollo_data r) (fun d => truthy (get d "email_verified"))
  | PhoneVerified =>
      data_test (apollo_data r) (fun d => truthy (get d "phone_verified"))
  | IntentData =>
      data_test (apollo_data r) (fun d => truthy (get d "intent_data"))
  | NewsMentions =>
      data_test (apollo_data r)
        (fun d => holds (py_gt_int (get_or d "news_mentions" (VInt 0)) 0))
  | ExperienceDepth =>
      data_test (linkedin_data r)
        (fun d => holds (py_ge_int (get_or d "experience_count" (VInt 0)) 2))
  | ConnectionCount =>
      data_test (linkedin_data r)
        (fun d => holds (py_ge_int (get_or d "connections" (VInt 0)) 100))
  | NetworkDepth =>
      match linkedin_connections r with
      | Some l => Z.of_nat (length l) >=? 20
      | None => false
      end
  end.

Definition all_signals : list signal :=
  [EmailVerified; PhoneVerified; IntentData; NewsMentions;
   ExperienceDepth; ConnectionCount; NetworkDepth].

Definition signal_total (r : EnhancedEnrichmentRecord) : Z :=
  foldr (fun s acc => indicator (signal_present r s) (signal_points s) + acc)
        0 all_signals.

Definition _determine_enrichment_status (record : EnhancedEnrichmentRecord)
    : EnhancedEnrichmentRecord :=
  if errors_truthy (errors record) then
    if opt_truthy (apollo_data record) || opt_truthy (linkedin_data record)
    then set_status record "Partial"
    else set_status record "Failed"
  else set_status record "Completed".

(** *** Statistics on mutual connections *)

(** The dictionary [_analyze_mutual_connections] returns when it is not
    empty.  The average is Python's [sum / len] on integers, the correctly
    rounded quotient of two positive integers. *)
Record mutual_stats : Type := mkStats {
  average_mutual_connections : float;
  max_mutual_connections : Z;
  high_mutual_count : Z;
  medium_mutual_count : Z;
  low_mutual_count : Z
}.

Definition count_where (p : Z -> bool) (l : list Z) : Z :=
  Z.of_nat (length (List.filter p l)).

(** [None] stands for the empty dictionary. *)
Definition _analyze_mutual_connections (connections : list NetworkConnection)
    : option mutual_stats :=
  let mutual_counts :=
    mutual_connections
      <$> List.filter (fun conn => mutual_connections conn >? 0) connections in
  match mutual_counts with
  | [] => None
  | c :: cs =>
      Some (mkStats
              (true_div (foldl Z.add 0 mutual_counts)
                 (Z.of_nat (length mutual_counts)))
              (foldl Z.max c cs)
              (count_where (fun c => c >=? 10) mutual_counts)
              (count_where (fun c => (5 <=? c) && (c <? 10)) mutual_counts)
              (count_where (fun c => (1 <=? c) && (c <? 5)) mutual_counts))
  end.

(** *** Completeness of the enhanced record *)

Definition apollo_fields : list string :=
  ["email"; "phone"; "title"; "company"; "industry"; "intent_data";
   "technographics"].

Definition linkedin_fields : list string :=
  ["headline"; "summary"; "experience"; "education"; "skills"].

(** The network block of [_calculate_enhanced_completeness], run on the
    counters [(total_fields, filled_fields)]. *)
Definition count_network (record : EnhancedEnrichmentRecord)
    (counters : Z * Z) : Z * Z :=
  match linkedin_connections record with
  | Some (c :: cs) =>
      let total_fields := fst counters + 3 in
      let filled1 :=
        if Z.of_nat (length (c :: cs)) >? 0 then snd counters + 1
        else snd counters in
      let filled2 :=
        if opt_truthy (network_analysis record) then filled1 + 2
        else filled1 in
      (total_fields, filled2)
  | _ => counters
  end.

Definition _calculate_enhanced_completeness
    (record : EnhancedEnrichmentRecord) : Z :=
  let c0 := (0, 0) in
  let c1 := Improved.count_provider (apollo_data record) apollo_fields c0 in
  let c2 := Improved.count_provider (linkedin_data record) linkedin_fields c1 in
  let c3 := count_network record c2 in
  let total_fields := fst c3 in
  let filled_fields := snd c3 in
  if total_fields >? 0 then percent_of filled_fields total_fields else 0.

(** The checklist the enhanced score is taken over: seven contact fields,
    five profile fields, and three network items of which the first is
    filled whenever there are connections and the other two with the
    network analysis. *)
Definition has_connections (record : EnhancedEnrichmentRecord) : bool :=
  match linkedin_connections record with
  | Some (_ :: _) => true
  | _ => false
  end.

Definition checklist_total (record : EnhancedEnrichmentRecord) : Z :=
  (if opt_truthy (apollo_data record) then 7 else 0)
  + (if opt_truthy (linkedin_data record) then 5 else 0)
  + (if has_connections record then 3 else 0).

Definition checklist_filled (record : EnhancedEnrichmentRecord) : Z :=
  Z.of_nat (length (filter (fun v => truthy v = true)
                      (Improved.provider_checklist (apollo_data record)
                         apollo_fields)))
  + Z.of_nat (length (filter (fun v => truthy v = true)
                        (Improved.provider_checklist (linkedin_data record)
                           linkedin_fields)))
  + (if has_connections record
     then 1 + (if opt_truthy (network_analysis record) then 2 else 0)
     else 0).

End Enhanced.

(** ** Sample worlds *)

Module Samples.

Definition st0 : State := mkState 0 [].

(** **** People *)

Definition person_bare : dict := {[ "name" := VStr "Ann Lee" ]}.

Definition person_email : dict :=
  {[ "name" := VStr "Ann Lee"; "primary_email" := VStr "ann@acme.org" ]}.

Definition person_profile : dict :=
  {[ "name" := VStr "Ann Lee";
     "linkedin" := VStr "https://www.linkedin.com/in/annlee" ]}.

(** A veteran with an employer and a state of residence; the person data
    the service extracts has no city. *)
Definition person_state : dict :=
  {[ "name" := VStr "Ann Lee"; "employer" := VStr "Acme";
     "state" := VStr "Virginia"; "military" := VBool true ]}.

(** **** Provider results *)

Definition raw_contact : dict :=
  {[ "email" := VStr "ann@acme.org"; "phone_number" := VStr "555-0100";
     "title" := VStr "Analyst"; "organization_name" := VStr "Acme" ]}.


(** Contact data with an email, and the same with a phone on top. *)
Definition contact_email_only : dict :=
  {[ "email" := VStr "ann@acme.org"; "company" := VStr "" ]}.

Definition contact_email_phone : dict :=
  <["phone" := VStr "555-0100"]> contact_email_only.

Definition improved_with (contact : option dict) : Improved.EnrichmentRecord :=
  Improved.mkRecord (VStr "Ann Lee") "p1" contact
    (Some {[ "headline" := VStr "Analyst";
             "experience" := VList [VStr "Acme"] ]})
    "In Progress" "Medium" 0 None.

(** Two results of the enhanced service: the second has a verified phone
    on top of what the first has. *)
Definition verified_email : dict :=
  {[ "email_verified" := VBool true; "intent_data" := VStr "hiring";
     "news_mentions" := VInt 3 ]}.

Definition verified_email_phone : dict :=
  <["phone_verified" := VBool true]> verified_email.

Definition deep_profile : dict :=
  {[ "experience_count" := VInt 4; "connections" := VInt 350 ]}.

Definition enhanced_with (contact : dict) : Enhanced.EnhancedEnrichmentRecord :=
  Enhanced.mkEnhanced (VStr "Ann Lee") "p1" (Some contact) (Some deep_profile)
    None None (Some ["Apollo"; "LinkedIn Profile"]) "In Progress" "Medium" 0
    None.

(** **** Runs, as the provider reports them *)

(** Still [RUNNING] at every check, each check taking half a
    millisecond. *)
Definition always_running (_ : string) (_ : nat) : status_reply :=
  StatusIs 500 (VStr "RUNNING") (FetchRequestError 0).

(** [FAILED] at the first check. *)
Definition fails_at_once (_ : string) (_ : nat) : status_reply :=
  StatusIs 500 (VStr "FAILED") (FetchRequestError 0).

(** [ABORTED] at the second check. *)
Definition aborted_second (_ : string) (k : nat) : status_reply :=
  match k with
  | 0%nat => StatusIs 500 (VStr "RUNNING") (FetchRequestError 0)
  | _ => StatusIs 500 (VStr "ABORTED") (FetchRequestError 0)
  end.

(** [SUCCEEDED] by the first check, with one contact. *)
Definition succeeds_first (_ : string) (_ : nat) : status_reply :=
  StatusIs 900 (VStr "SUCCEEDED") (FetchItems 100 [raw_contact]).

(** [SUCCEEDED] at the third check, with one contact. *)
Definition succeeds_third (_ : string) (k : nat) : status_reply :=
  match k with
  | 0%nat | 1%nat => StatusIs 500 (VStr "RUNNING") (FetchRequestError 0)
  | _ => StatusIs 300 (VStr "SUCCEEDED") (FetchItems 200 [raw_contact])
  end.

(** **** Stored pages *)

Definition no_instant (_ : string) : option Z := None.

(** The one timestamp that parses; the clock counts from it. *)
Definition sample_instant (s : string) : option Z :=
  if String.eqb s "2024-03-01T09:30:00.000+00:00" then Some 0 else None.

Definition ten_days : Z := 10 * Improved.microseconds_per_day.
Definition forty_five_days : Z := 45 * Improved.microseconds_per_day.

(** Thirty days and twelve hours. *)
Definition thirty_days_12h : Z :=
  30 * Improved.microseconds_per_day + 12 * 3600 * 1000000.

(** The page of an enrichment last edited at clock reading 0; it was
    stored with a score of 66, high confidence and contact data. *)
Definition stored_page : NotionPage :=
  mkPage "page0" ["Ann Lee"] ["p1"] (Some "Completed")
    (Some {[ "type" := VStr "last_edited_time";
             "last_edited_time" := VStr "2024-03-01T09:30:00.000Z" ]})
    (Some "High") (Some 66) ["Apollo"].

(** **** Worlds *)

Definition world_of (person : dict) (existing : option NotionPage)
    (instant : string -> option Z) (status : string -> nat -> status_reply)
    (store : option string) : World :=
  mkWorld (fun _ => Some person) (fun _ => existing) instant
    (fun _ => "{}") (fun _ => RunStarted "run1") status store.

Definition w_bare : World :=
  world_of person_bare None no_instant always_running (Some "page1").

Definition w_running : World :=
  world_of person_email None no_instant always_running (Some "page1").

Definition w_failed : World :=
  world_of person_email None no_instant fails_at_once (Some "page1").

Definition w_aborted : World :=
  world_of person_profile None no_instant aborted_second (Some "page1").

Definition w_succeeds : World :=
  world_of person_email None no_instant succeeds_third (Some "page1").

(** The same contact found at once, the store being down. *)
Definition w_quick : World :=
  world_of person_email None no_instant succeeds_first None.

Definition w_store_fails : World :=
  world_of person_email None no_instant succeeds_third None.

Definition w_stored : World :=
  world_of person_email (Some stored_page) sample_instant succeeds_third
    (Some "page1").

Definition w_state : World :=
  world_of person_state None no_instant succeeds_first (Some "page1").

(** Both providers are asked, and both runs succeed at the third check. *)
Definition person_both : dict :=
  {[ "name" := VStr "Ann Lee"; "primary_email" := VStr "ann@acme.org";
     "linkedin" := VStr "https://www.linkedin.com/in/annlee" ]}.

Definition w_both : World :=
  world_of person_both None no_instant succeeds_third (Some "page1").

(** A profile whose connection count came back as a text. *)
Definition profile_with_text_count : dict :=
  {[ "experience_count" := VInt 4; "connections" := VStr "500+" ]}.

Definition enhanced_text_count : Enhanced.EnhancedEnrichmentRecord :=
  Enhanced.mkEnhanced (VStr "Ann Lee") "p1" (Some verified_email)
    (Some profile_with_text_count) None None
    (Some ["Apollo"; "LinkedIn Profile"]) "In Progress" "Medium" 0 None.

(** A person with a city and a state. *)
Definition person_located : dict :=
  {[ "name" := VStr "Ann Lee"; "employer" := VStr "Acme";
     "city" := VStr "Norfolk"; "state" := VStr "Virginia" ]}.

(** Nobody is known under any id. *)
Definition w_nobody : World :=
  mkWorld (fun _ => None) (fun _ => None) no_instant (fun _ => "{}")
    (fun _ => RunStarted "run1") always_running (Some "page1").

(** The provider answers every job submission with a reply that has no
    ['data'] member. *)
Definition w_malformed : World :=
  mkWorld (fun _ => Some person_both) (fun _ => None) no_instant
    (fun _ => "{}") (fun _ => RunRaises "'data'") always_running
    (Some "page1").

(** What an attempt leaves behind: score, confidence, status, errors, the
    clock and the number of status checks. *)
Definition summary (run : option (outcome Improved.EnrichmentRecord * State))
    : option (Z * string * string * option (list string) * Z * nat) :=
  match run with
  | Some (Ok r, st) =>
      Some (Improved.completeness_score r, Improved.data_confidence r,
            Improved.enrichment_status r, Improved.errors r,
            clock st, status_checks (calls st))
  | _ => None
  end.

End Samples.

(** ** Properties *)

(** *** Sample runs *)

(** The contact is found at the third check, 30.0015 s after the start. *)
Example run_succeeds :
  Samples.summary (Improved.enrich_person_complete Samples.w_succeeds "p1" Samples.st0)
  = Some (66, "Medium", "Completed", None, 30001500, 3%nat).
Proof. vm_compute. reflexivity. Qed.

(** The run never finishes: twelve checks, then the poll gives up after
    180.006 s. *)
Example run_times_out :
  Samples.summary (Improved.enrich_person_complete Samples.w_running "p1" Samples.st0)
  = Some (0, "Low", "Completed", None, 180006000, 12%nat).
Proof. vm_compute. reflexivity. Qed.

(** A fresh stored record: the attempt is skipped. *)
Example run_is_skipped :
  Samples.summary (Improved.enrich_person_complete Samples.w_stored "p1"
             (mkState Samples.ten_days []))
  = Some (0, "Medium", "Completed", None, Samples.ten_days, 0%nat).
Proof. vm_compute. reflexivity. Qed.

(** *** Arithmetic of the percentage *)

Example percent_4_of_6 : percent_of 4 6 = 66.
Proof. vm_compute. reflexivity. Qed.

(** The float computation agrees with the integer floor on every pair the
    service can produce (at most fifteen checklist fields). *)
Lemma percent_of_floor (filled total : Z) :
  0 <= filled <= total -> 0 < total <= 15 ->
  percent_of filled total = 100 * filled / total.
Proof.
  intros Hf Ht.
  assert (Htab : percent_table_ok 15 = true) by (vm_compute; reflexivity).
  unfold percent_table_ok in Htab.
  rewrite forallb_forall in Htab.
  specialize (Htab (Z.to_nat total)).
  rewrite forallb_forall in Htab.
  specialize (Htab ltac:(apply in_seq; lia) (Z.to_nat filled)
                   ltac:(apply in_seq; lia)).
  rewrite !Z2Nat.id in Htab by lia.
  now apply Z.eqb_eq.
Qed.

Section Completeness.
Import Improved.

Lemma count_fields_spec (d : dict) (fields : list string) (t f : Z) :
  count_fields d fields (t, f)
  = (t + Z.of_nat (length fields),
     f + Z.of_nat (length (filter (fun v => truthy v = true)
                                  (get d <$> fields)))).
Proof.
  unfold count_fields. revert t f.
  induction fields as [|k ks IH]; intros t f.
  - cbn. f_equal; lia.
  - rewrite fmap_cons, filter_cons. cbn [foldl fst snd length].
    destruct (decide (truthy (get d k) = true)) as [Hk|Hk].
    + rewrite Hk, IH. cbn [length]. f_equal; lia.
    + apply not_true_is_false in Hk. rewrite Hk, IH. f_equal; lia.
Qed.

Lemma count_provider_spec (data : option dict) (fields : list string)
    (t f : Z) :
  count_provider data fields (t, f)
  = (t + Z.of_nat (length (provider_checklist data fields)),
     f + Z.of_nat (length (filter (fun v => truthy v = true)
                                  (provider_checklist data fields)))).
Proof.
  unfold count_provider, provider_checklist, opt_truthy.
  destruct data as [d|]; simpl.
  - destruct (dict_truthy d).
    + rewrite count_fields_spec, length_fmap. reflexivity.
    + simpl. f_equal; lia.
  - f_equal; lia.
Qed.

Lemma counters_spec (r : EnrichmentRecord) :
  count_provider (linkedin_data r) linkedin_fields
    (count_provider (apollo_data r) apollo_fields (0, 0))
  = (total_checklist_count r, filled_count r).
Proof.
  rewrite !count_provider_spec.
  unfold total_checklist_count, filled_count, checklist.
  rewrite filter_app, !length_app. f_equal; lia.
Qed.

Lemma filled_le_total (r : EnrichmentRecord) :
  0 <= filled_count r <= total_checklist_count r.
Proof.
  unfold filled_count, total_checklist_count.
  pose proof (length_filter (fun v => truthy v = true) (checklist r)). lia.
Qed.



End Completeness.

(** *** The job poller *)

(** Closes the case of an iteration that ends the loop, [new] being the
    calls it logged. *)
Ltac terminal_case new :=
  repeat (split; [first [lia | reflexivity | (unfold status_checks; cbn; lia)]|]);
  exists new; split; [reflexivity|];
  let r := fresh "r" in
  let t := fresh "t" in
  let H := fresh "H" in
  intros r t H; cbn in H;
  repeat match type of H with
         | _ \/ _ => destruct H as [H|H]
         | False => destruct H
         end;
  first [discriminate H | injection H as _ <-; lia].

Section PollerFacts.

Variables (w : World) (run_id : string) (start_time max_wait_time RT : Z).
Variable horizon : nat.
Hypothesis RT_nonneg : 0 <= RT.
Hypothesis remote_bounded :
  forall k, (k < horizon)%nat -> round_trip (w_status w run_id k) <= RT.

Lemma round_trip_nonneg (r : status_reply) : 0 <= round_trip r.
Proof.
  destruct r as [rt status fetch|rt|rt msg]; simpl; try lia.
  destruct (value_is_str status "SUCCEEDED"); [|lia].
  destruct fetch; simpl; lia.
Qed.

(** One run of the loop from any iteration: it returns whenever the fuel
    covers the remaining budget, the clock ends below the bound, and the
    status checks it makes fit in the budget. *)
Lemma poll_loop_inv (fuel : nat) :
  forall (k : nat) (st : State),
    (1 <= fuel)%nat ->
    (k + fuel <= horizon)%nat ->
    max_wait_time * second - (clock st - start_time)
      <= (Z.of_nat fuel - 1) * poll_interval ->
    exists res st' n,
      poll_loop fuel w run_id start_time max_wait_time k st = Some (res, st')
      /\ clock st <= clock st'
      /\ clock st' - start_time
         <= Z.max (clock st - start_time)
                  (max_wait_time * second + poll_interval + RT)
      /\ status_checks (calls st') = (status_checks (calls st) + n)%nat
      /\ dispatches (calls st') = dispatches (calls st)
      /\ Z.of_nat n * poll_interval
         < Z.max 0 (max_wait_time * second - (clock st - start_time))
           + poll_interval
      /\ exists new,
           calls st' = (new ++ calls st)%list
           /\ forall r t, In (StatusCheck r t) new ->
                          t - start_time < max_wait_time * second.
Proof.
  pose proof RT_nonneg as HRT.
  induction fuel as [|fuel' IH]; intros k st Hfuel Hhor Hbudget; [lia|].
  cbn [poll_loop]. unfold bind at 1. cbn [now].
  destruct (Z.ltb_spec (clock st - start_time) (max_wait_time * second))
    as [Hlt|Hge].
  - pose proof (remote_bounded k ltac:(lia)) as Hk.
    unfold bind at 1. cbn [log].
    destruct (w_status w run_id k) as [rt status fetch|rt|rt msg] eqn:Hreply;
      cbn [round_trip] in Hk.
    + unfold bind at 1. cbn [wait].
      destruct (value_is_str status "SUCCEEDED") eqn:Hs.
      * exists (match fetch with
                | FetchItems _ items => Ok (Some items)
                | FetchRequestError _ => Ok None
                | FetchRaises _ msg => Raise msg
                end),
               (tick (fetch_time fetch)
                  (emit (DatasetFetch run_id)
                     (tick (Z.of_N rt)
                        (emit (StatusCheck run_id (clock st)) st)))),
               1%nat.
        split; [destruct fetch; reflexivity|].
        assert (0 <= fetch_time fetch) by (destruct fetch; simpl; lia).
        unfold poll_interval, second in *. cbn.
        terminal_case [DatasetFetch run_id; StatusCheck run_id (clock st)].
      * destruct (existsb (value_is_str status) failure_statuses) eqn:Hf.
        -- exists (Ok None),
                  (tick (Z.of_N rt) (emit (StatusCheck run_id (clock st)) st)),
                  1%nat.
           unfold poll_interval, second in *. cbn.
           terminal_case [StatusCheck run_id (clock st)].
        -- unfold bind at 1. cbn [log]. unfold bind at 1. cbn [wait].
           set (st1 := tick poll_interval
                         (emit (Sleep poll_interval)
                            (tick (Z.of_N rt)
                               (emit (StatusCheck run_id (clock st)) st)))).
           assert (Hclock : clock st1 = clock st + Z.of_N rt + poll_interval)
             by reflexivity.
           assert (Hcalls : status_checks (calls st1)
                            = S (status_checks (calls st))) by reflexivity.
           assert (Hlog : calls st1
                          = Sleep poll_interval
                            :: StatusCheck run_id (clock st) :: calls st)
             by reflexivity.
           destruct fuel' as [|fuel''].
           { unfold poll_interval, second in *. cbn in Hbudget. lia. }
           destruct (IH (S k) st1 ltac:(lia) ltac:(lia))
             as (res & st' & n & Hrun & H1 & H2 & H3 & H5 & H4 & new & Hnew & Hin).
           { rewrite Hclock. unfold poll_interval, second in *. lia. }
           exists res, st', (S n). split; [exact Hrun|].
           rewrite Hclock in *. rewrite Hcalls in H3.
           unfold poll_interval, second in *.
           repeat (split; [first [lia | exact H5]|]).
           exists (new ++ [Sleep 15000000; StatusCheck run_id (clock st)])%list.
           split.
           ++ rewrite Hnew, Hlog, <- app_assoc. reflexivity.
           ++ intros r t Hrt. apply in_app_or in Hrt.
              destruct Hrt as [Hrt|Hrt]; [exact (Hin r t Hrt)|].
              cbn in Hrt. destruct Hrt as [Hrt|[Hrt|[]]]; [discriminate|].
              injection Hrt as _ <-. lia.
    + exists (Ok None),
             (tick (Z.of_N rt) (emit (StatusCheck run_id (clock st)) st)),
             1%nat.
      unfold poll_interval, second in *. cbn.
      terminal_case [StatusCheck run_id (clock st)].
    + exists (Raise msg),
             (tick (Z.of_N rt) (emit (StatusCheck run_id (clock st)) st)),
             1%nat.
      unfold poll_interval, second in *. cbn.
      terminal_case [StatusCheck run_id (clock st)].
  - exists (Ok None), st, 0%nat.
    unfold poll_interval, second in *. cbn.
    terminal_case (@nil event).
Qed.

End PollerFacts.

(** Finitely many replies have a common bound on their round trips. *)
Lemma round_trips_bounded (w : World) (run_id : string) (n : nat) :
  exists RT, 0 <= RT
    /\ forall k, (k < n)%nat -> round_trip (w_status w run_id k) <= RT.
Proof.
  induction n as [|n (RT & H0 & IH)].
  - exists 0. split; [lia|]. intros k Hk. lia.
  - exists (Z.max RT (round_trip (w_status w run_id n))). split; [lia|].
    intros k Hk. destruct (decide (k = n)) as [->|Hne]; [lia|].
    specialize (IH k ltac:(lia)). lia.
Qed.

Lemma poll_fuel_covers (W : Z) :
  0 <= W ->
  W * second - 0 <= (Z.of_nat (poll_fuel W) - 1) * poll_interval.
Proof.
  intros HW. unfold poll_fuel, poll_interval, second.
  pose proof (Z.mod_pos_bound W 15 ltac:(lia)).
  pose proof (Z.div_mod W 15 ltac:(lia)).
  assert (0 <= W / 15) by (apply Z.div_pos; lia).
  rewrite Nat2Z.inj_add, Z2Nat.id by lia. lia.
Qed.

Lemma poll_fuel_covers_neg (W : Z) :
  W < 0 ->
  W * second - 0 <= (Z.of_nat (poll_fuel W) - 1) * poll_interval.
Proof.
  intros HW. unfold poll_fuel, poll_interval, second. lia.
Qed.

(** The poll always returns, whatever the provider answers. *)
Lemma poll_returns (w : World) (run_id : string) (W : Z) (st : State) :
  exists res st',
    _get_actor_results w run_id W st = Some (res, st')
    /\ dispatches (calls st') = dispatches (calls st).
Proof.
  destruct (round_trips_bounded w run_id (poll_fuel W)) as (RT & HRT & Hrt).
  unfold _get_actor_results, bind. cbn [now].
  destruct (poll_loop_inv w run_id (clock st) W RT (poll_fuel W) HRT Hrt
              (poll_fuel W) 0%nat st)
    as (res & st' & n & Hrun & _ & _ & _ & Hd & _ & _).
  - unfold poll_fuel. lia.
  - lia.
  - destruct (Z_lt_le_dec W 0) as [Hneg|Hpos].
    + pose proof (poll_fuel_covers_neg W Hneg). lia.
    + pose proof (poll_fuel_covers W Hpos). lia.
  - exists res, st'. split; [exact Hrun | exact Hd].
Qed.

(** *** Polls that fail *)

Lemma status_time_nonneg (r : status_reply) : 0 <= status_time r.
Proof. destruct r; simpl; lia. Qed.

Lemma elapsed_before_lower (w : World) (run_id : string) (k : nat) :
  Z.of_nat k * poll_interval <= elapsed_before w run_id k.
Proof.
  induction k as [|k IH]; [simpl; lia|].
  cbn [elapsed_before].
  pose proof (status_time_nonneg (w_status w run_id k)).
  unfold poll_interval, second in *. lia.
Qed.

Lemma failure_not_succeeded (status : value) :
  existsb (value_is_str status) failure_statuses = true ->
  value_is_str status "SUCCEEDED" = false.
Proof.
  destruct status as [| | |s| |]; simpl; try discriminate.
  destruct (String.eqb_spec s "SUCCEEDED") as [->|]; [|reflexivity].
  discriminate.
Qed.

Lemma checks_made_succ (kind : failure_kind) (d : nat) :
  checks_made kind (S d) = S (checks_made kind d).
Proof. destruct kind; reflexivity. Qed.

Section FailingPoll.

Variables (w : World) (run_id : string) (start_time W : Z).
Variables (k : nat) (kind : failure_kind).
Hypothesis failing : fails_at w run_id W k kind.

(** From iteration [j], [d] iterations before the failing one, the loop
    checks [d] more times (and once more unless it times out), returns no
    data and raises nothing. *)
Lemma poll_loop_fails (d : nat) :
  forall (j fuel : nat) (st : State),
    (j + d = k)%nat -> (d < fuel)%nat ->
    clock st - start_time = elapsed_before w run_id j ->
    exists st',
      poll_loop fuel w run_id start_time W j st = Some (Ok None, st')
      /\ status_checks (calls st')
         = (status_checks (calls st) + checks_made kind d)%nat
      /\ dispatches (calls st') = dispatches (calls st).
Proof.
  destruct failing as [Hpending Hend].
  induction d as [|d IH]; intros j fuel st Hj Hfuel Hclock;
    (destruct fuel as [|fuel]; [lia|]);
    cbn [poll_loop]; unfold bind at 1; cbn [now]; rewrite Hclock.
  - replace j with k in * by lia.
    destruct kind.
    + destruct Hend as [Hlt [rt Hreply]].
      destruct (Z.ltb_spec (elapsed_before w run_id k) (W * second)); [|lia].
      unfold bind at 1. cbn [log]. rewrite Hreply.
      eexists. split; [reflexivity|]. split; [|reflexivity].
      unfold status_checks. cbn. lia.
    + destruct Hend as [Hlt (rt & status & fetch & Hreply & Hfail)].
      destruct (Z.ltb_spec (elapsed_before w run_id k) (W * second)); [|lia].
      unfold bind at 1. cbn [log]. rewrite Hreply.
      unfold bind at 1. cbn [wait].
      rewrite (failure_not_succeeded status Hfail), Hfail.
      eexists. split; [reflexivity|]. split; [|reflexivity].
      unfold status_checks. cbn. lia.
    + destruct (Z.ltb_spec (elapsed_before w run_id k) (W * second)); [lia|].
      eexists. split; [reflexivity|]. split; [|reflexivity].
      cbn. lia.
  - destruct (Hpending j ltac:(lia)) as [Hpend Hlt].
    destruct (Z.ltb_spec (elapsed_before w run_id j) (W * second)); [|lia].
    unfold bind at 1. cbn [log].
    destruct (w_status w run_id j) as [rt status fetch|rt|rt msg] eqn:Hreply;
      cbn [is_pending] in Hpend; try discriminate.
    apply andb_true_iff in Hpend. destruct Hpend as [Hs Hf].
    apply negb_true_iff in Hs, Hf.
    unfold bind at 1. cbn [wait]. rewrite Hs, Hf.
    unfold bind at 1. cbn [log]. unfold bind at 1. cbn [wait].
    match goal with
    | |- context [poll_loop fuel w run_id start_time W (S j) ?s] =>
        destruct (IH (S j) fuel s ltac:(lia) ltac:(lia)) as (st' & Hrun & Hc & Hd)
    end.
    { cbn [elapsed_before]. rewrite Hreply. cbn. lia. }
    exists st'. split; [exact Hrun|]. split; [|exact Hd].
    rewrite Hc, checks_made_succ. unfold status_checks. cbn. lia.
Qed.

Lemma failing_iteration_in_fuel : (k < poll_fuel W)%nat.
Proof.
  destruct failing as [Hpending Hend].
  assert (Hstart : forall j, elapsed_before w run_id j < W * second ->
                             (S j < poll_fuel W)%nat).
  { intros j Hlt. pose proof (elapsed_before_lower w run_id j) as Hlow.
    unfold poll_fuel, poll_interval, second in *.
    assert (Z.of_nat j * 15 < W) by lia.
    assert (0 <= W) by lia.
    pose proof (Z.mod_pos_bound W 15 ltac:(lia)).
    pose proof (Z.div_mod W 15 ltac:(lia)).
    assert (0 <= W / 15) by (apply Z.div_pos; lia).
    apply Nat2Z.inj_lt. rewrite Nat2Z.inj_add, Z2Nat.id by lia. lia. }
  destruct kind.
  - specialize (Hstart k ltac:(tauto)). lia.
  - specialize (Hstart k ltac:(tauto)). lia.
  - destruct k as [|j]; [unfold poll_fuel; lia|].
    destruct (Hpending j ltac:(lia)) as [_ Hlt].
    exact (Hstart j Hlt).
Qed.

End FailingPoll.

(** A poll that fails in one of the three non-fatal ways returns no data,
    raises nothing, and stops at the failure. *)
Lemma failed_poll_returns_none (w : World) (run_id : string) (W : Z)
    (k : nat) (kind : failure_kind) (st : State) :
  fails_at w run_id W k kind ->
  exists st',
    _get_actor_results w run_id W st = Some (Ok None, st')
    /\ status_checks (calls st')
       = (status_checks (calls st) + checks_made kind k)%nat
    /\ dispatches (calls st') = dispatches (calls st).
Proof.
  intros Hfail. unfold _get_actor_results, bind. cbn [now].
  apply (poll_loop_fails w run_id (clock st) W k kind Hfail k 0%nat).
  - lia.
  - pose proof (failing_iteration_in_fuel w run_id W k kind Hfail). lia.
  - simpl. lia.
Qed.

(** A run that stays [RUNNING] exhausts the 180 s budget before a
    thirteenth check. *)
Example running_times_out :
  fails_at Samples.w_running "run1" 180 12 LocalTimeout.
Proof.
  split.
  - intros j Hj.
    do 12 (destruct j as [|j];
           [split; [reflexivity | vm_compute; reflexivity]|]).
    lia.
  - vm_compute. discriminate.
Qed.

(** *** The attempt always returns a record *)

Section Attempt.
Import Improved.

Lemma apollo_pipeline_returns (w : World) (pd : dict) (st : State) :
  exists res st', _run_apollo_enrichment_safe w pd st = Some (res, st').
Proof.
  unfold _run_apollo_enrichment_safe. unfold bind at 1, lift.
  destruct (_prepare_apollo_search pd) as [[input|]|msg]; eauto.
  destruct (dict_truthy input); cbn [negb]; eauto.
  unfold bind at 1, _run_apify_actor. unfold bind at 1. cbn [log].
  destruct (w_run w apollo_actor_id) as [run_id| |msg]; cbn [ret raise]; eauto.
  unfold bind at 1.
  destruct (poll_returns w run_id 180 (emit (Dispatch apollo_actor_id input) st))
    as (res & st' & Hrun & _).
  rewrite Hrun. destruct res as [[[|r rs]|]|msg]; eauto.
Qed.

Lemma linkedin_pipeline_returns (w : World) (pd : dict) (st : State) :
  exists res st', _run_linkedin_enrichment_safe w pd st = Some (res, st').
Proof.
  unfold _run_linkedin_enrichment_safe.
  destruct (truthy (get pd "linkedin")); cbn [negb]; [|eauto].
  unfold bind at 1, _run_apify_actor. unfold bind at 1. cbn [log].
  destruct (w_run w linkedin_actor_id) as [run_id| |msg]; cbn [ret raise]; eauto.
  unfold bind at 1.
  match goal with
  | |- context [_get_actor_results w run_id 180 ?s] =>
      destruct (poll_returns w run_id 180 s) as (res & st' & Hrun & _)
  end.
  rewrite Hrun. destruct res as [[[|r rs]|]|msg]; eauto.
Qed.

(** A provider step never lets an exception escape, keeps the other
    provider's data, and either stores what its pipeline returned or
    appends one error. *)
Lemma apollo_step_returns (w : World) (pd : dict) (r : EnrichmentRecord)
    (st : State) :
  exists r' st',
    apollo_step w pd r st = Some (Ok r', st')
    /\ ((exists data, r' = set_apollo_data r data)
        \/ (exists msg, r' = append_error r msg)).
Proof.
  unfold apollo_step.
  destruct (truthy (get pd "primary_email") || truthy (get pd "employer")).
  - unfold catch, bind.
    destruct (apollo_pipeline_returns w pd st) as (res & st' & Hrun).
    rewrite Hrun. destruct res as [data|msg]; cbn; eauto 10.
  - exists r, st. split; [reflexivity|]. left. exists (apollo_data r).
    destruct r; reflexivity.
Qed.

Lemma linkedin_step_returns (w : World) (pd : dict) (r : EnrichmentRecord)
    (st : State) :
  exists r' st',
    linkedin_step w pd r st = Some (Ok r', st')
    /\ ((exists data, r' = set_linkedin_data r data)
        \/ (exists msg, r' = append_error r msg)).
Proof.
  unfold linkedin_step.
  destruct (truthy (get pd "linkedin")).
  - unfold catch, bind.
    destruct (linkedin_pipeline_returns w pd st) as (res & st' & Hrun).
    rewrite Hrun. destruct res as [data|msg]; cbn; eauto 10.
  - exists r, st. split; [reflexivity|]. left. exists (linkedin_data r).
    destruct r; reflexivity.
Qed.

Lemma scored_fields (r2 : EnrichmentRecord) :
  completeness_score (scored r2) = _calculate_completeness (scored r2)
  /\ data_confidence (scored r2) = _assess_data_confidence (scored r2)
  /\ enrichment_status (scored r2) = final_status (scored r2)
  /\ apollo_data (scored r2) = apollo_data r2
  /\ linkedin_data (scored r2) = linkedin_data r2
  /\ errors (scored r2) = errors r2.
Proof. destruct r2; repeat split. Qed.

(** The attempt always returns a record, scored and given its status from
    its own provider data and error list; the record does not depend on
    what the store answers. *)
Lemma run_enrichment_returns (w : World) (pid : string) (pd : dict)
    (st : State) :
  exists r2 st',
    run_enrichment w pid pd st = Some (Ok (scored r2), st')
    /\ forall store',
        exists st'',
          run_enrichment (with_store w store') pid pd st
          = Some (Ok (scored r2), st'').
Proof.
  unfold run_enrichment.
  set (r0 := new_record (get_or pd "name" (VStr "Unknown")) pid "In Progress" None).
  destruct (apollo_step_returns w pd r0 st) as (r1 & st1 & H1 & _).
  destruct (linkedin_step_returns w pd r1 st1) as (r2 & st2 & H2 & _).
  exists r2.
  assert (Htail : forall w0,
    apollo_step w0 pd r0 st = Some (Ok r1, st1) ->
    linkedin_step w0 pd r1 st1 = Some (Ok r2, st2) ->
    exists st',
      bind (apollo_step w0 pd r0)
        (fun r1 => bind (linkedin_step w0 pd r1)
           (fun r2 =>
              bind (_store_enrichment_record w0 (scored r2))
                (fun enrichment_page_id =>
                   bind (match enrichment_page_id with
                         | Some page =>
                             if negb (String.eqb page "")
                             then _link_to_people_db pid page else ret tt
                         | None => ret tt
                         end)
                     (fun _ => ret (scored r2))))) st
      = Some (Ok (scored r2), st')).
  { intros w0 Ha Hl. unfold bind at 1. rewrite Ha.
    unfold bind at 1. rewrite Hl.
    unfold _store_enrichment_record. unfold bind. cbn [log ret].
    destruct (w_store w0) as [page|]; [|eauto].
    destruct (negb (String.eqb page "")); cbn; eauto. }
  destruct (Htail w H1 H2) as (st' & Hrun).
  exists st'. split; [exact Hrun|].
  intros store'. apply Htail; assumption.
Qed.

(** Past the lookup and the gate, [enrich_person_complete] is the
    attempt. *)
Lemma attempt_unfolds (w : World) (pid : string) (pd : dict) (st : State) :
  w_person w pid = Some pd ->
  gate_passes w pid st = true ->
  enrich_person_complete w pid st = run_enrichment w pid pd st.
Proof.
  intros Hperson Hgate. unfold enrich_person_complete, gate_passes in *.
  rewrite Hperson. destruct (w_existing w pid) as [page|]; [|reflexivity].
  unfold bind. cbn [now]. rewrite Hgate. reflexivity.
Qed.

End Attempt.

Lemma status_checks_app (l1 l2 : list event) :
  status_checks (l1 ++ l2) = (status_checks l1 + status_checks l2)%nat.
Proof.
  unfold status_checks. rewrite List.filter_app. apply length_app.
Qed.

(** C6: a poll with max wait [W] always returns.  The clock has then
    advanced by at most [W] plus one poll interval plus one status/fetch
    round trip; every status check it made started while the elapsed time
    was strictly below [W]; and their number [n] is bounded by the budget:
    [15 n < W + 15], a sleep of one interval following each check that
    does not end the loop. *)
Theorem poll_is_bounded (w : World) (run_id : string) (W RT : Z) (st : State) :
  0 <= W ->
  (forall k, round_trip (w_status w run_id k) <= RT) ->
  exists res st' new,
    _get_actor_results w run_id W st = Some (res, st')
    /\ calls st' = (new ++ calls st)%list
    /\ clock st' - clock st <= W * second + poll_interval + RT
    /\ (forall r t, In (StatusCheck r t) new -> t - clock st < W * second)
    /\ Z.of_nat (status_checks new) * 15 < W + 15.
Proof.
  intros HW Hrt.
  assert (HRT : 0 <= RT).
  { pose proof (Hrt 0%nat).
    pose proof (round_trip_nonneg (w_status w run_id 0)). lia. }
  unfold _get_actor_results, bind. cbn [now].
  destruct (poll_loop_inv w run_id (clock st) W RT (poll_fuel W) HRT
              (fun k _ => Hrt k) (poll_fuel W) 0%nat st)
    as (res & st' & n & Hrun & H1 & H2 & H3 & _ & H4 & new & Hnew & Hin).
  - unfold poll_fuel. lia.
  - lia.
  - pose proof (poll_fuel_covers W HW). lia.
  - exists res, st', new. split; [exact Hrun|]. split; [exact Hnew|].
    rewrite Hnew, status_checks_app in H3.
    assert (status_checks new = n) as -> by lia.
    unfold poll_interval, second in *. repeat split; [lia | exact Hin | lia].
Qed.

Lemma poll_is_bounded_witness :
  exists res st' new,
    _get_actor_results Samples.w_running "run1" 180 Samples.st0
      = Some (res, st')
    /\ calls st' = (new ++ calls Samples.st0)%list
    /\ clock st' - clock Samples.st0 <= 180 * second + poll_interval + 500
    /\ (forall r t, In (StatusCheck r t) new ->
                    t - clock Samples.st0 < 180 * second)
    /\ Z.of_nat (status_checks new) * 15 < 180 + 15.
Proof.
  apply (poll_is_bounded Samples.w_running "run1" 180 500 Samples.st0).
  - lia.
  - intros k. cbn. lia.
Defined.

(** *** Final status *)

Lemma status_rule_holds (data errs : bool) :
  status_rule (if errs then if data then "Partial" else "Failed"
               else "Completed") data errs.
Proof.
  unfold status_rule. destruct data, errs; repeat split; intros;
    try discriminate; try tauto; try (destruct H; discriminate); auto.
Qed.

(** C1, as the code has it: an attempt that runs (the person is found and
    the gate lets it through) returns a record whose status is settled
    from its provider data and its error list alone, before the record is
    stored: [Partial] exactly when some provider produced data and an
    error was recorded, [Completed] when some provider produced data and
    no error was recorded (and only without errors), [Failed] when no
    provider produced data and an error was recorded (and only without
    data).  The answer of the store plays no part: the same record comes
    back whatever the store replies, so a record with data and no error
    comes back [Completed] also when the store refused the page.  The
    enhanced service settles its status by the same rule. *)
Theorem status_follows_data_and_errors (w : World) (pid : string) (pd : dict)
    (st : State) :
  w_person w pid = Some pd ->
  Improved.gate_passes w pid st = true ->
  (exists r st',
     Improved.enrich_person_complete w pid st = Some (Ok r, st')
     /\ status_rule (Improved.enrichment_status r)
          (Improved.has_data r) (Improved.has_errors r)
     /\ (forall store',
          exists st'',
            Improved.enrich_person_complete (with_store w store') pid st
            = Some (Ok r, st''))
     /\ (w_store w = None ->
         Improved.has_data r = true -> Improved.has_errors r = false ->
         Improved.enrichment_status r = "Completed"))
  /\ (forall e : Enhanced.EnhancedEnrichmentRecord,
        status_rule
          (Enhanced.enrichment_status (Enhanced._determine_enrichment_status e))
          (opt_truthy (Enhanced.apollo_data e)
           || opt_truthy (Enhanced.linkedin_data e))
          (errors_truthy (Enhanced.errors e))).
Proof.
  intros Hperson Hgate. split.
  - destruct (run_enrichment_returns w pid pd st) as (r2 & st' & Hrun & Hstore).
    exists (Improved.scored r2), st'.
    split; [rewrite (attempt_unfolds w pid pd st Hperson Hgate); exact Hrun|].
    assert (Hrule : status_rule
                      (Improved.enrichment_status (Improved.scored r2))
                      (Improved.has_data (Improved.scored r2))
                      (Improved.has_errors (Improved.scored r2))).
    { destruct (scored_fields r2) as (_ & _ & Hst & Ha & Hl & He).
      rewrite Hst. unfold Improved.final_status, Improved.has_data,
        Improved.has_errors.
      rewrite Ha, Hl, He.
      pose proof (status_rule_holds
                    (opt_truthy (Improved.apollo_data r2)
                     || opt_truthy (Improved.linkedin_data r2))
                    (errors_truthy (Improved.errors r2))) as H.
      destruct (errors_truthy (Improved.errors r2)),
               (opt_truthy (Improved.apollo_data r2)
                || opt_truthy (Improved.linkedin_data r2)); exact H. }
    split; [exact Hrule|]. split.
    + intros store'. destruct (Hstore store') as (st'' & Hrun').
      exists st''.
      rewrite (attempt_unfolds (with_store w store') pid pd st Hperson Hgate).
      exact Hrun'.
    + intros _ Hdata Herrs.
      destruct Hrule as (_ & Hcompleted & _). exact (Hcompleted Hdata Herrs).
  - intros e. unfold Enhanced._determine_enrichment_status.
    pose proof (status_rule_holds
                  (opt_truthy (Enhanced.apollo_data e)
                   || opt_truthy (Enhanced.linkedin_data e))
                  (errors_truthy (Enhanced.errors e))) as H.
    destruct (errors_truthy (Enhanced.errors e)),
             (opt_truthy (Enhanced.apollo_data e)
              || opt_truthy (Enhanced.linkedin_data e)); exact H.
Qed.

Lemma status_follows_data_and_errors_witness :
  w_store Samples.w_store_fails = None
  /\ exists r st',
       Improved.enrich_person_complete Samples.w_store_fails "p1" Samples.st0
         = Some (Ok r, st')
       /\ Improved.has_data r = true
       /\ Improved.has_errors r = false
       /\ Improved.enrichment_status r = "Completed"
       /\ (forall store',
            exists st'',
              Improved.enrich_person_complete
                (with_store Samples.w_store_fails store') "p1" Samples.st0
              = Some (Ok r, st'')).
Proof.
  split; [reflexivity|].
  destruct (proj1 (status_follows_data_and_errors Samples.w_store_fails "p1"
                     Samples.person_email Samples.st0 eq_refl eq_refl))
    as (r & st' & Hrun & _ & Hstore & Hcompleted).
  assert (Hdata : Improved.has_data r = true
                  /\ Improved.has_errors r = false).
  { pose proof Hrun as H. vm_compute in H. injection H as <- _.
    split; vm_compute; reflexivity. }
  destruct Hdata as [Hdata Herrs].
  exists r, st'. split; [exact Hrun|]. split; [exact Hdata|].
  split; [exact Herrs|]. split; [|exact Hstore].
  exact (Hcompleted eq_refl Hdata Herrs).
Defined.

(** C1 at the failing input: the contact provider produced data, the
    store then refused the page, and the returned status is [Completed]
    all the same, against the claim's rule for [Completed]. *)
Lemma completed_despite_failed_store :
  exists r st',
    Improved.enrich_person_complete Samples.w_store_fails "p1" Samples.st0
      = Some (Ok r, st')
    /\ w_store Samples.w_store_fails = None
    /\ Improved.has_data r = true
    /\ ~ (Improved.enrichment_status r = "Completed"
          <-> (w_store Samples.w_store_fails <> None
               /\ Improved.has_data r = true)).
Proof.
  eexists. eexists. split; [vm_compute; reflexivity|].
  split; [reflexivity|]. split; [vm_compute; reflexivity|].
  intros [H _]. destruct (H eq_refl) as [Hstore _]. apply Hstore. reflexivity.
Qed.

(** C2, as the code has it: for a person with no primary email, no
    employer and no profile URL the attempt dispatches no job and scores
    0, and it ends [Completed] (the error list is empty), not [Failed]. *)
Theorem bare_person_ends_completed (w : World) (pid : string) (pd : dict)
    (st : State) :
  w_person w pid = Some pd ->
  Improved.gate_passes w pid st = true ->
  truthy (get pd "primary_email") = false ->
  truthy (get pd "employer") = false ->
  truthy (get pd "linkedin") = false ->
  exists r st',
    Improved.enrich_person_complete w pid st = Some (Ok r, st')
    /\ dispatches (calls st') = dispatches (calls st)
    /\ Improved.completeness_score r = 0
    /\ Improved.enrichment_status r = "Completed".
Proof.
  intros Hperson Hgate He Hm Hl.
  rewrite (attempt_unfolds w pid pd st Hperson Hgate).
  unfold Improved.run_enrichment, Improved.apollo_step, Improved.linkedin_step.
  rewrite He, Hm, Hl. cbn [orb].
  unfold bind at 1. cbn [ret]. unfold bind at 1. cbn [ret].
  unfold Improved._store_enrichment_record.
  unfold bind. cbn [log ret].
  destruct (w_store w) as [page|].
  - destruct (negb (String.eqb page "")); cbn;
      eexists; eexists; (split; [reflexivity|]); repeat split.
  - eexists; eexists; (split; [reflexivity|]); repeat split.
Qed.

Lemma bare_person_ends_completed_witness :
  exists r st',
    Improved.enrich_person_complete Samples.w_bare "p1" Samples.st0
      = Some (Ok r, st')
    /\ dispatches (calls st') = dispatches (calls Samples.st0)
    /\ Improved.completeness_score r = 0
    /\ Improved.enrichment_status r = "Completed".
Proof.
  apply (bare_person_ends_completed Samples.w_bare "p1" Samples.person_bare
           Samples.st0); reflexivity.
Defined.

(** *** Provider pipelines that fail without raising *)

Lemma dict_truthy_insert (k : string) (v : value) (m : dict) :
  dict_truthy (<[k := v]> m) = true.
Proof.
  unfold dict_truthy.
  destruct (map_to_list (<[k := v]> m)) as [|kv l] eqn:E; [|reflexivity].
  apply map_to_list_empty_iff in E.
  exfalso. exact (insert_non_empty m k v E).
Qed.

Lemma prepared_input_truthy (pd input : dict) :
  Improved._prepare_apollo_search pd = Ok (Some input) ->
  dict_truthy input = true.
Proof.
  unfold Improved._prepare_apollo_search.
  destruct (if truthy (get_or pd "name" (VStr "")) then _ else _);
    [|discriminate].
  destruct (negb (dict_truthy _)); [discriminate|].
  intros [= <-]. apply dict_truthy_insert.
Qed.

(** C3 (amended): a provider pipeline that was dispatched and then failed
    non-fatally (the status call failed, the run ended FAILED, ABORTED or
    TIMED-OUT, or the max wait elapsed) yields no data and appends nothing
    to the error list; the job was submitted once, and the poll stops at
    the failure: [k + 1] status checks when check [k] fails, [k] when the
    wait runs out before check [k]. *)
Theorem failed_pipeline_yields_no_data_no_error
    (p : Improved.provider) (w : World) (pd : dict)
    (record : Improved.EnrichmentRecord) (st : State)
    (input : dict) (run_id : string) (k : nat) (kind : failure_kind) :
  Improved.provider_request p pd = Some input ->
  w_run w (Improved.provider_actor p) = RunStarted run_id ->
  fails_at w run_id 180 k kind ->
  exists r' st',
    Improved.provider_step p w pd record st = Some (Ok r', st')
    /\ Improved.provider_data p r' = None
    /\ Improved.errors r' = Improved.errors record
    /\ dispatches (calls st')
       = Dispatch (Improved.provider_actor p) input :: dispatches (calls st)
    /\ status_checks (calls st')
       = (status_checks (calls st) + checks_made kind k)%nat.
Proof.
  intros Hreq Hrun Hfail.
  destruct p; cbn [Improved.provider_request Improved.provider_actor
                   Improved.provider_step Improved.provider_data] in *.
  - unfold Improved.apollo_step.
    destruct (truthy (get pd "primary_email") || truthy (get pd "employer"));
      [|discriminate].
    destruct (Improved._prepare_apollo_search pd) as [[input'|]|msg] eqn:Hprep;
      try discriminate.
    injection Hreq as ->.
    pose proof (prepared_input_truthy pd input Hprep) as Htruthy.
    unfold catch. unfold bind at 1.
    unfold Improved._run_apollo_enrichment_safe.
    unfold bind at 1, lift. rewrite Hprep, Htruthy. cbn [negb].
    unfold bind at 1, _run_apify_actor. unfold bind at 1. cbn [log].
    rewrite Hrun. cbn [ret]. unfold bind at 1.
    destruct (failed_poll_returns_none w run_id 180 k kind
                (emit (Dispatch Improved.apollo_actor_id input) st) Hfail)
      as (st' & Hpoll & Hchecks & Hdisp).
    rewrite Hpoll. cbn [ret].
    eexists. exists st'. split; [reflexivity|].
    repeat split; [exact Hdisp | exact Hchecks].
  - unfold Improved.linkedin_step.
    destruct (truthy (get pd "linkedin")) eqn:Hurl; [|discriminate].
    injection Hreq as <-.
    unfold catch. unfold bind at 1.
    unfold Improved._run_linkedin_enrichment_safe. rewrite Hurl. cbn [negb].
    unfold bind at 1, _run_apify_actor. unfold bind at 1. cbn [log].
    rewrite Hrun. cbn [ret]. unfold bind at 1.
    match goal with
    | |- context [_get_actor_results w run_id 180 ?s] =>
        destruct (failed_poll_returns_none w run_id 180 k kind s Hfail)
          as (st' & Hpoll & Hchecks & Hdisp)
    end.
    rewrite Hpoll. cbn [ret].
    eexists. exists st'. split; [reflexivity|].
    repeat split; [exact Hdisp | exact Hchecks].
Qed.

Lemma aborted_second_fails :
  fails_at Samples.w_aborted "run1" 180 1 JobFailed.
Proof.
  split.
  - intros j Hj. assert (j = 0%nat) as -> by lia.
    split; [reflexivity | vm_compute; reflexivity].
  - split; [vm_compute; reflexivity|].
    exists 500%N, (VStr "ABORTED"), (FetchRequestError 0).
    split; reflexivity.
Defined.

Lemma failed_pipeline_yields_no_data_no_error_witness :
  exists r' st',
    Improved.linkedin_step Samples.w_aborted Samples.person_profile
      (Improved.new_record (VStr "Ann Lee") "p1" "In Progress" None)
      Samples.st0 = Some (Ok r', st')
    /\ Improved.linkedin_data r' = None
    /\ Improved.errors r' = None
    /\ dispatches (calls st')
       = [Dispatch Improved.linkedin_actor_id
            (Improved.linkedin_input
               (VStr "https://www.linkedin.com/in/annlee"))]
    /\ status_checks (calls st') = 2%nat.
Proof.
  exact (failed_pipeline_yields_no_data_no_error Improved.ProfileProvider
           Samples.w_aborted Samples.person_profile
           (Improved.new_record (VStr "Ann Lee") "p1" "In Progress" None)
           Samples.st0
           (Improved.linkedin_input (VStr "https://www.linkedin.com/in/annlee"))
           "run1" 1 JobFailed eq_refl eq_refl aborted_second_fails).
Defined.

(** C3 as stated fails: the contact job was dispatched and the provider
    reported it FAILED at the first check, and the returned record has no
    error entry at all. *)
Lemma failed_job_appends_no_error :
  fails_at Samples.w_failed "run1" 180 0 JobFailed
  /\ exists r st',
       Improved.enrich_person_complete Samples.w_failed "p1" Samples.st0
         = Some (Ok r, st')
       /\ length (dispatches (calls st')) = 1%nat
       /\ Improved.apollo_data r = None
       /\ length (default [] (Improved.errors r)) <> 1%nat.
Proof.
  split.
  - split; [intros j Hj; lia|].
    split; [vm_compute; reflexivity|].
    exists 500%N, (VStr "FAILED"), (FetchRequestError 0). split; reflexivity.
  - eexists. eexists. split; [vm_compute; reflexivity|].
    split; [reflexivity|]. split; [reflexivity|]. cbn. discriminate.
Qed.

(** *** The staleness gate *)

Lemma dict_falsy_empty (d : dict) : dict_truthy d = false -> d = ∅.
Proof.
  unfold dict_truthy. destruct (map_to_list d) eqn:E; [|discriminate].
  intros _. now apply map_to_list_empty_iff.
Qed.

Lemma should_update_by_age (w : World) (now_us : Z) (page : NotionPage) :
  Improved._should_update_enrichment w now_us page
  = match Improved.last_modified w page with
    | Some t => 30 <? Improved.age_in_days now_us t
    | None => true
    end.
Proof.
  unfold Improved._should_update_enrichment, Improved.last_modified,
    Improved.age_in_days.
  destruct (page_last_updated page) as [le|]; [|reflexivity].
  destruct (dict_truthy le) eqn:Hle; cbn [andb negb].
  - destruct (get le "last_edited_time") as [|b|n|s|l|kvs]; cbn [truthy].
    + reflexivity.
    + destruct b; reflexivity.
    + destruct (n =? 0); reflexivity.
    + destruct (String.eqb s ""); cbn [negb]; [reflexivity|].
      destruct (w_instant w (replace_Z s)) as [t|]; [|reflexivity].
      rewrite Z.gtb_ltb. reflexivity.
    + destruct l; reflexivity.
    + destruct kvs; reflexivity.
  - apply dict_falsy_empty in Hle. subst le.
    unfold get. rewrite lookup_empty. reflexivity.
Qed.

Lemma thirty_one_days (now_us t : Z) :
  (30 <? Improved.age_in_days now_us t)
  = (31 * Improved.microseconds_per_day <=? now_us - t).
Proof.
  unfold Improved.age_in_days, Improved.microseconds_per_day.
  destruct (Z.leb_spec (31 * (86400 * 1000000)) (now_us - t)) as [H|H].
  - apply Z.ltb_lt.
    assert (31 <= (now_us - t) / (86400 * 1000000))
      by (apply Z.div_le_lower_bound; lia).
    lia.
  - apply Z.ltb_ge.
    assert ((now_us - t) / (86400 * 1000000) < 31)
      by (apply Z.div_lt_upper_bound; lia).
    lia.
Qed.

(** C4 (amended): for a person with an existing enrichment record the
    gate lets the attempt run exactly when the whole number of days
    elapsed since the record's last-modified timestamp exceeds 30, that
    is, from 31 full days on; a 10-day-old record is skipped, a
    45-day-old one is re-run; a timestamp that is absent or does not
    parse gives a re-run, and so does the absence of any record. *)
Theorem staleness_gate_decides_by_age (w : World) (pid : string) (pd : dict)
    (st : State) :
  w_person w pid = Some pd ->
  Improved.enrich_person_complete w pid st
    = match w_existing w pid with
      | None => Improved.run_enrichment w pid pd st
      | Some page =>
          match Improved.last_modified w page with
          | None => Improved.run_enrichment w pid pd st
          | Some t =>
              if 30 <? Improved.age_in_days (clock st) t
              then Improved.run_enrichment w pid pd st
              else Some (Ok (Improved._extract_enrichment_record page), st)
          end
      end
  /\ (forall now_us page,
        Improved._should_update_enrichment w now_us page
        = match Improved.last_modified w page with
          | Some t => 30 <? Improved.age_in_days now_us t
          | None => true
          end)
  /\ (forall now_us t,
        (30 <? Improved.age_in_days now_us t)
        = (31 * Improved.microseconds_per_day <=? now_us - t))
  /\ (forall t,
        (30 <? Improved.age_in_days
                 (t + 10 * Improved.microseconds_per_day) t) = false)
  /\ (forall t,
        (30 <? Improved.age_in_days
                 (t + 45 * Improved.microseconds_per_day) t) = true).
Proof.
  intros Hperson. split; [|split; [|split; [|split]]].
  - unfold Improved.enrich_person_complete. rewrite Hperson.
    destruct (w_existing w pid) as [page|]; [|reflexivity].
    unfold bind. cbn [now]. rewrite should_update_by_age.
    destruct (Improved.last_modified w page) as [t|]; [|reflexivity].
    destruct (30 <? Improved.age_in_days (clock st) t); reflexivity.
  - intros. apply should_update_by_age.
  - apply thirty_one_days.
  - intros t. rewrite thirty_one_days.
    unfold Improved.microseconds_per_day. apply Z.leb_gt. lia.
  - intros t. rewrite thirty_one_days.
    unfold Improved.microseconds_per_day. apply Z.leb_le. lia.
Qed.

Lemma staleness_gate_decides_by_age_witness :
  w_person Samples.w_stored "p1" = Some Samples.person_email
  /\ Improved.last_modified Samples.w_stored Samples.stored_page = Some 0
  /\ Improved.enrich_person_complete Samples.w_stored "p1"
       (mkState Samples.ten_days [])
     = Some (Ok (Improved._extract_enrichment_record Samples.stored_page),
             mkState Samples.ten_days [])
  /\ Improved.enrich_person_complete Samples.w_stored "p1"
       (mkState Samples.forty_five_days [])
     = Improved.run_enrichment Samples.w_stored "p1" Samples.person_email
         (mkState Samples.forty_five_days []).
Proof.
  split; [reflexivity|]. split; [reflexivity|]. split.
  - rewrite (proj1 (staleness_gate_decides_by_age Samples.w_stored "p1"
                      Samples.person_email (mkState Samples.ten_days [])
                      eq_refl)).
    reflexivity.
  - rewrite (proj1 (staleness_gate_decides_by_age Samples.w_stored "p1"
                      Samples.person_email
                      (mkState Samples.forty_five_days []) eq_refl)).
    reflexivity.
Defined.

(** C4 as stated fails: a record last modified 30 days and 12 hours ago
    is older than 30 days, and the gate skips it: the attempt returns the
    stored record and makes no call. *)
Lemma older_than_thirty_days_is_skipped :
  Improved.last_modified Samples.w_stored Samples.stored_page = Some 0
  /\ 30 * Improved.microseconds_per_day < Samples.thirty_days_12h - 0
  /\ Improved._should_update_enrichment Samples.w_stored
       Samples.thirty_days_12h Samples.stored_page = false
  /\ Improved.enrich_person_complete Samples.w_stored "p1"
       (mkState Samples.thirty_days_12h [])
     = Some (Ok (Improved._extract_enrichment_record Samples.stored_page),
             mkState Samples.thirty_days_12h [])
  /\ ~ (Improved._should_update_enrichment Samples.w_stored
         Samples.thirty_days_12h Samples.stored_page = true
       <-> 30 * Improved.microseconds_per_day
           < Samples.thirty_days_12h - 0).
Proof.
  assert (Hskip : Improved._should_update_enrichment Samples.w_stored
                    Samples.thirty_days_12h Samples.stored_page = false)
    by (vm_compute; reflexivity).
  assert (Hold : 30 * Improved.microseconds_per_day
                 < Samples.thirty_days_12h - 0)
    by (vm_compute; reflexivity).
  split; [reflexivity|]. split; [exact Hold|]. split; [exact Hskip|].
  split; [vm_compute; reflexivity|].
  intros [_ H]. rewrite Hskip in H. specialize (H Hold). discriminate.
Qed.

(** C5 (amended): when the gate skips, nothing is dispatched, stored or
    linked, and the returned record is rebuilt from the stored page with
    its person name, original record id and enrichment status only: the
    provider data are absent, the score is 0, the confidence is the
    default [Medium] and there is no error list, whatever was stored. *)
Theorem skip_returns_extracted_record (w : World) (pid : string) (pd : dict)
    (page : NotionPage) (st : State) :
  w_person w pid = Some pd ->
  w_existing w pid = Some page ->
  Improved._should_update_enrichment w (clock st) page = false ->
  exists r,
    Improved.enrich_person_complete w pid st = Some (Ok r, st)
    /\ Improved.person_name r = VStr (hd "" (page_title page))
    /\ Improved.original_record_id r = hd "" (page_original_id page)
    /\ Improved.enrichment_status r = default "Unknown" (page_status page)
    /\ Improved.apollo_data r = None
    /\ Improved.linkedin_data r = None
    /\ Improved.completeness_score r = 0
    /\ Improved.data_confidence r = "Medium"
    /\ Improved.errors r = None.
Proof.
  intros Hperson Hpage Hskip.
  exists (Improved._extract_enrichment_record page). split.
  - unfold Improved.enrich_person_complete. rewrite Hperson, Hpage.
    unfold bind. cbn [now]. rewrite Hskip. reflexivity.
  - unfold Improved._extract_enrichment_record.
    destruct (page_title page), (page_original_id page), (page_status page);
      repeat split.
Qed.

Lemma skip_returns_extracted_record_witness :
  exists r,
    Improved.enrich_person_complete Samples.w_stored "p1"
      (mkState Samples.ten_days []) = Some (Ok r, mkState Samples.ten_days [])
    /\ Improved.person_name r = VStr "Ann Lee"
    /\ Improved.original_record_id r = "p1"
    /\ Improved.enrichment_status r = "Completed"
    /\ Improved.apollo_data r = None
    /\ Improved.linkedin_data r = None
    /\ Improved.completeness_score r = 0
    /\ Improved.data_confidence r = "Medium"
    /\ Improved.errors r = None.
Proof.
  exact (skip_returns_extracted_record Samples.w_stored "p1"
           Samples.person_email Samples.stored_page
           (mkState Samples.ten_days []) eq_refl eq_refl eq_refl).
Defined.

(** C5 as stated fails: the stored record has score 66, high confidence
    and contact-provider data; the record returned on the skip has score
    0 and confidence [Medium]. *)
Lemma skip_drops_stored_scores :
  exists r,
    Improved.enrich_person_complete Samples.w_stored "p1"
      (mkState Samples.ten_days []) = Some (Ok r, mkState Samples.ten_days [])
    /\ Improved._should_update_enrichment Samples.w_stored Samples.ten_days
         Samples.stored_page = false
    /\ page_completeness Samples.stored_page = Some 66
    /\ Improved.completeness_score r <> 66
    /\ page_confidence Samples.stored_page = Some "High"
    /\ Improved.data_confidence r <> "High".
Proof.
  eexists. split; [vm_compute; reflexivity|].
  repeat split; try reflexivity; cbn; discriminate.
Qed.

(** *** Confidence *)

Lemma bucket_monotone (high medium a b : Z) :
  medium <= high -> a <= b ->
  (confidence_rank (bucket high medium a)
   <= confidence_rank (bucket high medium b))%nat.
Proof.
  intros Hhm Hab. unfold bucket. rewrite !Z.geb_leb.
  destruct (Z.leb_spec high a), (Z.leb_spec high b),
           (Z.leb_spec medium a), (Z.leb_spec medium b);
    cbn; lia.
Qed.

Lemma indicator_monotone (b1 b2 : bool) (points : Z) :
  0 <= points -> (b1 = true -> b2 = true) ->
  indicator b1 points <= indicator b2 points.
Proof.
  intros Hp H. destruct b1, b2; cbn; try lia;
    specialize (H eq_refl); discriminate.
Qed.

Lemma improved_confidence_as_bucket (r : Improved.EnrichmentRecord) :
  Improved._assess_data_confidence r = bucket 70 40 (Improved.signal_total r).
Proof.
  unfold Improved._assess_data_confidence, Improved.signal_total, bucket.
  cbn [foldr Improved.all_signals Improved.signal_present
       Improved.signal_points].
  unfold Improved.field_present, indicator.
  destruct (Improved.apollo_data r) as [a|];
    [destruct (dict_truthy a); cbn [andb];
     [destruct (truthy (get a "email")), (truthy (get a "phone")),
               (truthy (get a "company"))|]|];
    (destruct (Improved.linkedin_data r) as [l|];
     [destruct (dict_truthy l); cbn [andb];
      [destruct (truthy (get l "headline")), (truthy (get l "experience")),
                (truthy (get l "education"))|]|]);
    reflexivity.
Qed.

Lemma improved_total_monotone (r1 r2 : Improved.EnrichmentRecord) :
  (forall s, Improved.signal_present r1 s = true ->
             Improved.signal_present r2 s = true) ->
  Improved.signal_total r1 <= Improved.signal_total r2.
Proof.
  intros H. unfold Improved.signal_total.
  induction Improved.all_signals as [|s l IH]; cbn [foldr]; [lia|].
  pose proof (indicator_monotone (Improved.signal_present r1 s)
                (Improved.signal_present r2 s) (Improved.signal_points s)
                ltac:(destruct s; cbn; lia) (H s)).
  lia.
Qed.

Lemma add_when_ok (b : bool) (points s : Z) :
  Enhanced.add_when (Ok b) points (Ok s) = Ok (s + indicator b points).
Proof. destruct b; cbn; f_equal; lia. Qed.

Lemma add_when_raise (test : outcome bool) (points : Z) (msg : string) :
  Enhanced.add_when test points (Raise msg) = Raise msg.
Proof. reflexivity. Qed.

Lemma add_when_test (test : outcome bool) (points s : Z) :
  Enhanced.add_when test points (Ok s)
  = match test with
    | Ok b => Ok (s + indicator b points)
    | Raise msg => Raise msg
    end.
Proof. destruct test as [[|]|msg]; cbn; try reflexivity; f_equal; lia. Qed.

Lemma holds_ok (b : bool) : Enhanced.holds (Ok b) = b.
Proof. reflexivity. Qed.

(** When the enhanced assessment returns, its label is the bucket of the
    points of the signals the record has. *)
Lemma enhanced_confidence_as_bucket (e : Enhanced.EnhancedEnrichmentRecord)
    (c : string) :
  Enhanced._assess_enhanced_confidence e = Ok c ->
  c = bucket 80 50 (Enhanced.signal_total e).
Proof.
  unfold Enhanced._assess_enhanced_confidence, Enhanced.signal_total.
  cbn [foldr Enhanced.all_signals Enhanced.signal_present
       Enhanced.signal_points].
  unfold Enhanced.data_test.
  set (conn := match Enhanced.linkedin_connections e with
               | Some l => Z.of_nat (length l) >=? 20
               | None => false
               end).
  assert (Hconn : forall s2,
    match Enhanced.linkedin_connections e with
    | Some (c0 :: cs) =>
        Enhanced.add_when (Ok (Z.of_nat (length (c0 :: cs)) >=? 20)) 15 s2
    | _ => s2
    end = Enhanced.add_when (Ok conn) 15 s2).
  { intros s2. subst conn.
    destruct (Enhanced.linkedin_connections e) as [[|c0 cs]|];
      destruct s2; reflexivity. }
  rewrite Hconn. clear Hconn. generalize conn. clear conn. intros conn.
  destruct (Enhanced.apollo_data e) as [a|];
    [destruct (dict_truthy a); cbn [andb]|];
    (destruct (Enhanced.linkedin_data e) as [l|];
     [destruct (dict_truthy l); cbn [andb]|]);
    rewrite ?add_when_ok, ?add_when_test;
    repeat match goal with
    | |- context [py_gt_int ?v ?n] =>
        destruct (py_gt_int v n) as [?|?];
        rewrite ?add_when_ok, ?add_when_test, ?add_when_raise, ?holds_ok
    | |- context [py_ge_int ?v ?n] =>
        destruct (py_ge_int v n) as [?|?];
        rewrite ?add_when_ok, ?add_when_test, ?add_when_raise, ?holds_ok
    end;
    try discriminate;
    intros [= <-]; unfold bucket; cbn [indicator];
    repeat match goal with |- context [indicator ?b ?p] => destruct b; cbn [indicator] end;
    f_equal.
Qed.

Lemma enhanced_total_monotone (e1 e2 : Enhanced.EnhancedEnrichmentRecord) :
  (forall s, Enhanced.signal_present e1 s = true ->
             Enhanced.signal_present e2 s = true) ->
  Enhanced.signal_total e1 <= Enhanced.signal_total e2.
Proof.
  intros H. unfold Enhanced.signal_total.
  induction Enhanced.all_signals as [|s l IH]; cbn [foldr]; [lia|].
  pose proof (indicator_monotone (Enhanced.signal_present e1 s)
                (Enhanced.signal_present e2 s) (Enhanced.signal_points s)
                ltac:(destruct s; cbn; lia) (H s)).
  lia.
Qed.

(** C8: the confidence bucket is monotone in the signals.  If every
    signal present in the first input is present in the second (in
    particular when the second has one more signal and is otherwise the
    same), the bucket of the second is not lower in Low < Medium < High.
    This holds for the improved assessment, and for the enhanced one
    whenever it returns a label for both inputs. *)
Theorem confidence_is_monotone
    (r1 r2 : Improved.EnrichmentRecord)
    (e1 e2 : Enhanced.EnhancedEnrichmentRecord) (c1 c2 : string) :
  (forall s, Improved.signal_present r1 s = true ->
             Improved.signal_present r2 s = true) ->
  (forall s, Enhanced.signal_present e1 s = true ->
             Enhanced.signal_present e2 s = true) ->
  Enhanced._assess_enhanced_confidence e1 = Ok c1 ->
  Enhanced._assess_enhanced_confidence e2 = Ok c2 ->
  (confidence_rank (Improved._assess_data_confidence r1)
   <= confidence_rank (Improved._assess_data_confidence r2))%nat
  /\ (confidence_rank c1 <= confidence_rank c2)%nat.
Proof.
  intros Hr He H1 H2. split.
  - rewrite !improved_confidence_as_bucket.
    apply bucket_monotone; [lia|]. now apply improved_total_monotone.
  - rewrite (enhanced_confidence_as_bucket e1 c1 H1),
            (enhanced_confidence_as_bucket e2 c2 H2).
    apply bucket_monotone; [lia|]. now apply enhanced_total_monotone.
Qed.

Lemma confidence_is_monotone_witness :
  (confidence_rank
     (Improved._assess_data_confidence
        (Samples.improved_with (Some Samples.contact_email_only)))
   <= confidence_rank
        (Improved._assess_data_confidence
           (Samples.improved_with (Some Samples.contact_email_phone))))%nat
  /\ (confidence_rank "Medium" <= confidence_rank "High")%nat.
Proof.
  apply (confidence_is_monotone
           (Samples.improved_with (Some Samples.contact_email_only))
           (Samples.improved_with (Some Samples.contact_email_phone))
           (Samples.enhanced_with Samples.verified_email)
           (Samples.enhanced_with Samples.verified_email_phone)
           "Medium" "High").
  - intros s; destruct s; vm_compute; intros H;
      first [exact H | reflexivity].
  - intros s; destruct s; vm_compute; intros H;
      first [exact H | reflexivity].
  - vm_compute. reflexivity.
  - vm_compute. reflexivity.
Defined.

(** *** Scoring depends on the provider data only *)

Lemma scores_depend_on_data_only (a b : Improved.EnrichmentRecord) :
  Improved.apollo_data a = Improved.apollo_data b ->
  Improved.linkedin_data a = Improved.linkedin_data b ->
  Improved._calculate_completeness a = Improved._calculate_completeness b
  /\ Improved._assess_data_confidence a = Improved._assess_data_confidence b.
Proof.
  intros Ha Hl.
  unfold Improved._calculate_completeness, Improved._assess_data_confidence.
  rewrite Ha, Hl. split; reflexivity.
Qed.

Lemma attempt_result_is_scored (w : World) (pid : string) (pd : dict)
    (st st' : State) (r : Improved.EnrichmentRecord) :
  Improved.run_enrichment w pid pd st = Some (Ok r, st') ->
  Improved.completeness_score r = Improved._calculate_completeness r
  /\ Improved.data_confidence r = Improved._assess_data_confidence r.
Proof.
  intros Hrun.
  destruct (run_enrichment_returns w pid pd st) as (r2 & st2 & Hrun2 & _).
  rewrite Hrun in Hrun2. injection Hrun2 as -> _.
  destruct (scored_fields r2) as (Hc & Hd & _). split; assumption.
Qed.

(** C9: scoring is deterministic.  The completeness score and the
    confidence level of the record an attempt returns are
    [_calculate_completeness] and [_assess_data_confidence] of that
    record, and these read the per-provider data only: two attempts, in
    any two worlds, at any two times and after any polling histories,
    that end with the same per-provider data end with the same score and
    the same confidence. *)
Theorem scoring_is_deterministic
    (w1 w2 : World) (pid1 pid2 : string) (pd1 pd2 : dict)
    (st1 st2 st1' st2' : State) (r1 r2 : Improved.EnrichmentRecord) :
  w_person w1 pid1 = Some pd1 -> Improved.gate_passes w1 pid1 st1 = true ->
  w_person w2 pid2 = Some pd2 -> Improved.gate_passes w2 pid2 st2 = true ->
  Improved.enrich_person_complete w1 pid1 st1 = Some (Ok r1, st1') ->
  Improved.enrich_person_complete w2 pid2 st2 = Some (Ok r2, st2') ->
  Improved.apollo_data r1 = Improved.apollo_data r2 ->
  Improved.linkedin_data r1 = Improved.linkedin_data r2 ->
  Improved.completeness_score r1 = Improved.completeness_score r2
  /\ Improved.data_confidence r1 = Improved.data_confidence r2
  /\ Improved.completeness_score r1 = Improved._calculate_completeness r1
  /\ Improved.data_confidence r1 = Improved._assess_data_confidence r1.
Proof.
  intros Hp1 Hg1 Hp2 Hg2 H1 H2 Ha Hl.
  rewrite (attempt_unfolds w1 pid1 pd1 st1 Hp1 Hg1) in H1.
  rewrite (attempt_unfolds w2 pid2 pd2 st2 Hp2 Hg2) in H2.
  destruct (attempt_result_is_scored _ _ _ _ _ _ H1) as [Hc1 Hd1].
  destruct (attempt_result_is_scored _ _ _ _ _ _ H2) as [Hc2 Hd2].
  destruct (scores_depend_on_data_only r1 r2 Ha Hl) as [Hc Hd].
  repeat split; congruence.
Qed.

Lemma scoring_is_deterministic_witness :
  exists r1 r2 st1' st2',
    Improved.enrich_person_complete Samples.w_succeeds "p1" Samples.st0
      = Some (Ok r1, st1')
    /\ Improved.enrich_person_complete Samples.w_quick "p1"
         (mkState Samples.ten_days []) = Some (Ok r2, st2')
    /\ clock st1' <> clock st2'
    /\ status_checks (calls st1') <> status_checks (calls st2')
    /\ Improved.completeness_score r1 = Improved.completeness_score r2
    /\ Improved.data_confidence r1 = Improved.data_confidence r2
    /\ Improved.completeness_score r1 = Improved._calculate_completeness r1
    /\ Improved.data_confidence r1 = Improved._assess_data_confidence r1.
Proof.
  do 4 eexists.
  split; [vm_compute; reflexivity|].
  split; [vm_compute; reflexivity|].
  split; [vm_compute; discriminate|].
  split; [vm_compute; discriminate|].
  eapply (scoring_is_deterministic Samples.w_succeeds Samples.w_quick
            "p1" "p1" Samples.person_email Samples.person_email
            Samples.st0 (mkState Samples.ten_days [])).
  - reflexivity.
  - reflexivity.
  - reflexivity.
  - reflexivity.
  - vm_compute. reflexivity.
  - vm_compute. reflexivity.
  - vm_compute. reflexivity.
  - vm_compute. reflexivity.
Defined.

(** *** The enhanced request builder *)

Lemma put_if_lookup_ne (cond : bool) (k k' : string) (v : value) (m : dict) :
  k <> k' -> Enhanced.put_if cond k v m !! k' = m !! k'.
Proof.
  intros Hne. unfold Enhanced.put_if. destruct cond; [|reflexivity].
  now apply lookup_insert_ne.
Qed.

(** C10: in the enhanced service, for a person with a non-empty state and
    no city, building the search criteria raises
    [KeyError('person_locations')].  The contact pipeline therefore
    produces no data for such a person: when an email or an employer is
    present the phase is entered, the exception is caught before any job
    is submitted, and it becomes the record's error entry. *)
Theorem state_without_city_raises_key_error (w : World) (pid : string)
    (pd : dict) (st : State) :
  truthy (get pd "state") = true ->
  truthy (get pd "city") = false ->
  (truthy (get pd "name") = true -> exists n, get pd "name" = VStr n) ->
  Enhanced._build_comprehensive_apollo_search pd = Raise "'person_locations'"
  /\ exists r',
       Enhanced.apollo_phase w pd (Enhanced.initial_record pd pid) st
         = Some (Ok r', st)
       /\ Enhanced.apollo_data r' = None
       /\ Enhanced.external_data_sources r' = Some []
       /\ Enhanced.errors r'
          = if truthy (get pd "primary_email") || truthy (get pd "employer")
            then Some ["Apollo enrichment failed: 'person_locations'"]
            else None.
Proof.
  intros Hstate Hcity Hname.
  assert (Hbuild : Enhanced._build_comprehensive_apollo_search pd
                   = Raise "'person_locations'").
  { unfold Enhanced._build_comprehensive_apollo_search.
    rewrite Hstate, Hcity.
    change (Enhanced.put_if false "person_locations")
      with (fun (_ : value) (m : dict) => m).
    cbv beta.
    destruct (truthy (get pd "name")) eqn:Htn.
    - destruct (Hname eq_refl) as [n ->].
      destruct (split_first_space n) as [first rest].
      rewrite !put_if_lookup_ne by discriminate.
      rewrite !lookup_insert_ne by discriminate.
      rewrite lookup_empty. reflexivity.
    - rewrite !put_if_lookup_ne by discriminate.
      rewrite lookup_empty. reflexivity. }
  split; [exact Hbuild|].
  unfold Enhanced.apollo_phase.
  destruct (truthy (get pd "primary_email") || truthy (get pd "employer")).
  - unfold catch, bind, Enhanced._run_enhanced_apollo_enrichment, bind, lift.
    rewrite Hbuild. cbn [ret].
    eexists. split; [reflexivity|]. repeat split.
  - eexists. split; [reflexivity|]. repeat split.
Qed.

Lemma state_without_city_raises_key_error_witness :
  Enhanced._build_comprehensive_apollo_search Samples.person_state
    = Raise "'person_locations'"
  /\ exists r',
       Enhanced.apollo_phase Samples.w_state Samples.person_state
         (Enhanced.initial_record Samples.person_state "p1") Samples.st0
         = Some (Ok r', Samples.st0)
       /\ Enhanced.apollo_data r' = None
       /\ Enhanced.external_data_sources r' = Some []
       /\ Enhanced.errors r'
          = Some ["Apollo enrichment failed: 'person_locations'"].
Proof.
  apply (state_without_city_raises_key_error Samples.w_state "p1"
           Samples.person_state Samples.st0).
  - reflexivity.
  - reflexivity.
  - intros _. exists "Ann Lee". reflexivity.
Defined.

(** ** Further properties of the two services *)

(** *** What a poll logs *)

Lemma dispatches_app (l1 l2 : list event) :
  dispatches (l1 ++ l2) = (dispatches l1 ++ dispatches l2)%list.
Proof. unfold dispatches. apply List.filter_app. Qed.

Lemma store_calls_app (l1 l2 : list event) :
  store_calls (l1 ++ l2) = (store_calls l1 ++ store_calls l2)%list.
Proof. unfold store_calls. apply List.filter_app. Qed.

Lemma dataset_fetches_app (l1 l2 : list event) :
  dataset_fetches (l1 ++ l2) = (dataset_fetches l1 + dataset_fetches l2)%nat.
Proof.
  unfold dataset_fetches. rewrite List.filter_app. apply length_app.
Qed.

Lemma poll_events_quiet (run_id : string) (l : list event) :
  forallb (poll_event run_id) l = true ->
  dispatches l = [] /\ store_calls l = [].
Proof.
  induction l as [|e l IH]; [split; reflexivity|].
  cbn [forallb]. intros H. apply andb_true_iff in H. destruct H as [He Hl].
  destruct (IH Hl) as [Hd Hs].
  destruct e; cbn in He; try discriminate; cbn; auto.
Qed.

(** Whatever a run of the loop returns, it only logged events of its own
    run, its dataset fetch (if any) came last, and the clock did not go
    back. *)
Lemma poll_loop_trace (w : World) (run_id : string) (start_time W : Z)
    (fuel : nat) :
  forall (k : nat) (st st' : State) (res : outcome (option (list dict))),
    poll_loop fuel w run_id start_time W k st = Some (res, st') ->
    exists new,
      calls st' = (new ++ calls st)%list
      /\ forallb (poll_event run_id) new = true
      /\ clock st <= clock st'
      /\ (dataset_fetches new <= 1)%nat
      /\ (dataset_fetches new = 1%nat ->
          exists rest, new = DatasetFetch run_id :: rest).
Proof.
  induction fuel as [|fuel IH]; intros k st st' res Hrun; [discriminate|].
  cbn [poll_loop] in Hrun. unfold bind at 1 in Hrun. cbn [now] in Hrun.
  destruct (clock st - start_time <? W * second).
  - unfold bind at 1 in Hrun. cbn [log] in Hrun.
    destruct (w_status w run_id k) as [rt status fetch|rt|rt msg].
    + unfold bind at 1 in Hrun. cbn [wait] in Hrun.
      destruct (value_is_str status "SUCCEEDED").
      * exists [DatasetFetch run_id; StatusCheck run_id (clock st)].
        assert (Hst : calls st' = DatasetFetch run_id
                        :: StatusCheck run_id (clock st) :: calls st
                      /\ clock st <= clock st').
        { destruct fetch; cbn in Hrun; injection Hrun as _ <-; cbn;
            split; try reflexivity; lia. }
        destruct Hst as [Hcalls Hclock].
        split; [exact Hcalls|]. cbn. rewrite String.eqb_refl.
        repeat split; try lia; eauto.
      * destruct (existsb (value_is_str status) failure_statuses).
        -- cbn in Hrun. injection Hrun as _ <-.
           exists [StatusCheck run_id (clock st)]. cbn.
           rewrite String.eqb_refl. repeat split; try lia; try discriminate.
        -- unfold bind at 1 in Hrun. cbn [log] in Hrun.
           unfold bind at 1 in Hrun. cbn [wait] in Hrun.
           destruct (IH _ _ _ _ Hrun) as (new & Hc & Hall & Hclk & Hf & Hlast).
           exists (new ++ [Sleep poll_interval; StatusCheck run_id (clock st)])%list.
           cbn in Hc, Hclk.
           split; [rewrite Hc, <- app_assoc; reflexivity|].
           split.
           { rewrite forallb_app, Hall. cbn.
             rewrite String.eqb_refl, Z.eqb_refl. reflexivity. }
           split; [unfold poll_interval, second in *; lia|].
           rewrite dataset_fetches_app. cbn.
           split; [lia|]. intros H1.
           destruct (Hlast ltac:(lia)) as [rest ->]. eauto.
    + cbn in Hrun. injection Hrun as _ <-.
      exists [StatusCheck run_id (clock st)]. cbn.
      rewrite String.eqb_refl. repeat split; try lia; try discriminate.
    + cbn in Hrun. injection Hrun as _ <-.
      exists [StatusCheck run_id (clock st)]. cbn.
      rewrite String.eqb_refl. repeat split; try lia; try discriminate.
  - cbn in Hrun. injection Hrun as _ <-.
    exists []. cbn. repeat split; try lia; try discriminate.
Qed.

(** X1: a poll only talks about its own run.  Every call it logs is a
    status check or a dataset fetch of the polled run or a 15 s sleep; it
    fetches the dataset at most once, as its very last call; and it never
    submits a job or writes to the record store. *)
Theorem poll_only_touches_its_run (w : World) (run_id : string) (W : Z)
    (st : State) :
  exists res st' new,
    _get_actor_results w run_id W st = Some (res, st')
    /\ calls st' = (new ++ calls st)%list
    /\ forallb (poll_event run_id) new = true
    /\ dispatches new = [] /\ store_calls new = []
    /\ (dataset_fetches new <= 1)%nat
    /\ (dataset_fetches new = 1%nat ->
        exists rest, new = DatasetFetch run_id :: rest)
    /\ clock st <= clock st'.
Proof.
  destruct (poll_returns w run_id W st) as (res & st' & Hrun & _).
  exists res, st'.
  pose proof Hrun as Hloop.
  unfold _get_actor_results, bind in Hloop. cbn [now] in Hloop.
  destruct (poll_loop_trace _ _ _ _ _ _ _ _ _ Hloop)
    as (new & Hc & Hall & Hclk & Hf & Hlast).
  exists new. destruct (poll_events_quiet run_id new Hall) as [Hd Hs].
  repeat split; assumption.
Qed.

(** *** What an attempt logs *)

Lemma get_actor_results_trace (w : World) (run_id : string) (W : Z)
    (st st' : State) (res : outcome (option (list dict))) :
  _get_actor_results w run_id W st = Some (res, st') ->
  exists new,
    calls st' = (new ++ calls st)%list
    /\ dispatches new = [] /\ store_calls new = []
    /\ clock st <= clock st'.
Proof.
  intros Hrun. unfold _get_actor_results, bind in Hrun. cbn [now] in Hrun.
  destruct (poll_loop_trace _ _ _ _ _ _ _ _ _ Hrun)
    as (new & Hc & Hall & Hclk & _).
  exists new. destruct (poll_events_quiet run_id new Hall) as [Hd Hs].
  repeat split; assumption.
Qed.

(** A submitted job and its poll: one dispatch, no store call. *)
Lemma submit_and_poll_trace (w : World) (actor : string) (input : dict)
    (W : Z) {A} (k : option (list dict) -> M A) (st st' : State)
    (res : outcome A) :
  (forall o s, exists a, k o s = Some (Ok a, s)) ->
  bind (_run_apify_actor w actor input)
    (fun run_response =>
       match run_response with
       | None => k None
       | Some run_id => bind (_get_actor_results w run_id W) k
       end) st = Some (res, st') ->
  exists new,
    calls st' = (new ++ calls st)%list
    /\ dispatches new = [Dispatch actor input]
    /\ store_calls new = []
    /\ clock st <= clock st'.
Proof.
  intros Hk Hrun.
  unfold bind at 1, _run_apify_actor in Hrun. unfold bind at 1 in Hrun.
  cbn [log] in Hrun.
  destruct (w_run w actor) as [run_id| |msg]; cbn [ret raise] in Hrun.
  - unfold bind at 1 in Hrun.
    destruct (_get_actor_results w run_id W (emit (Dispatch actor input) st))
      as [[[o|msg] st1]|] eqn:Hpoll; try discriminate.
    + destruct (get_actor_results_trace _ _ _ _ _ _ Hpoll)
        as (new & Hc & Hd & Hs & Hclk).
      destruct (Hk o st1) as [a Ha]. rewrite Ha in Hrun.
      injection Hrun as _ <-.
      exists (new ++ [Dispatch actor input])%list. cbn in Hc, Hclk.
      split; [rewrite Hc, <- app_assoc; reflexivity|].
      rewrite dispatches_app, store_calls_app, Hd, Hs. repeat split. exact Hclk.
    + destruct (get_actor_results_trace _ _ _ _ _ _ Hpoll)
        as (new & Hc & Hd & Hs & Hclk).
      injection Hrun as _ <-.
      exists (new ++ [Dispatch actor input])%list. cbn in Hc, Hclk.
      split; [rewrite Hc, <- app_assoc; reflexivity|].
      rewrite dispatches_app, store_calls_app, Hd, Hs. repeat split. exact Hclk.
  - destruct (Hk None (emit (Dispatch actor input) st)) as [a Ha].
    rewrite Ha in Hrun. injection Hrun as _ <-.
    exists [Dispatch actor input]. cbn. repeat split. lia.
  - injection Hrun as _ <-.
    exists [Dispatch actor input]. cbn. repeat split. lia.
Qed.

Lemma provider_step_trace (p : Improved.provider) (w : World) (pd : dict)
    (r : Improved.EnrichmentRecord) (st st' : State)
    (res : outcome Improved.EnrichmentRecord) :
  Improved.provider_step p w pd r st = Some (res, st') ->
  exists new,
    calls st' = (new ++ calls st)%list
    /\ dispatches new
       = match Improved.provider_request p pd with
         | Some input => [Dispatch (Improved.provider_actor p) input]
         | None => []
         end
    /\ store_calls new = []
    /\ clock st <= clock st'.
Proof.
  assert (Hnil : forall s : State, exists new : list event,
            calls s = (new ++ calls s)%list
            /\ dispatches new = [] /\ store_calls new = []
            /\ clock s <= clock s).
  { intros s. exists []. repeat split. lia. }
  destruct p; cbn [Improved.provider_step Improved.provider_request
                   Improved.provider_actor].
  - unfold Improved.apollo_step.
    destruct (truthy (get pd "primary_email") || truthy (get pd "employer"));
      [|intros [= _ <-]; apply Hnil].
    unfold catch. unfold bind at 1.
    destruct (Improved._run_apollo_enrichment_safe w pd st)
      as [[out st1]|] eqn:Hpipe; [|discriminate].
    intros Hres.
    assert (st' = st1) as ->
      by (destruct out; unfold ret in Hres; cbn in Hres; congruence).
    clear Hres. unfold Improved._run_apollo_enrichment_safe in Hpipe.
    unfold bind at 1, lift in Hpipe.
    destruct (Improved._prepare_apollo_search pd) as [[input|]|msg] eqn:Hprep.
    + rewrite (prepared_input_truthy pd input Hprep) in Hpipe.
      cbn [negb] in Hpipe.
      eapply (submit_and_poll_trace w Improved.apollo_actor_id input 180
                (fun results =>
                   match results with
                   | Some (r0 :: rs) =>
                       ret (Some (Improved._process_apollo_results w (r0 :: rs)))
                   | _ => ret None
                   end)); [|exact Hpipe].
      intros [[|r0 rs]|] s; eexists; reflexivity.
    + injection Hpipe as _ <-. apply Hnil.
    + injection Hpipe as _ <-. apply Hnil.
  - unfold Improved.linkedin_step.
    destruct (truthy (get pd "linkedin")) eqn:Hurl;
      [|intros [= _ <-]; apply Hnil].
    unfold catch. unfold bind at 1.
    destruct (Improved._run_linkedin_enrichment_safe w pd st)
      as [[out st1]|] eqn:Hpipe; [|discriminate].
    intros Hres.
    assert (st' = st1) as ->
      by (destruct out; unfold ret in Hres; cbn in Hres; congruence).
    clear Hres. unfold Improved._run_linkedin_enrichment_safe in Hpipe.
    rewrite Hurl in Hpipe. cbn [negb] in Hpipe.
    eapply (submit_and_poll_trace w Improved.linkedin_actor_id
              (Improved.linkedin_input (get pd "linkedin")) 180
              (fun results =>
                 match results with
                 | Some (r0 :: _) => ret (Some r0)
                 | _ => ret None
                 end)); [|exact Hpipe].
    intros [[|r0 rs]|] s; eexists; reflexivity.
Qed.

Lemma attempt_anatomy (w : World) (pid : string) (pd : dict)
    (st st' : State) (r : Improved.EnrichmentRecord) :
  Improved.run_enrichment w pid pd st = Some (Ok r, st') ->
  exists r1 r2 st1 st2,
    Improved.apollo_step w pd
      (Improved.new_record (get_or pd "name" (VStr "Unknown")) pid
         "In Progress" None) st = Some (Ok r1, st1)
    /\ Improved.linkedin_step w pd r1 st1 = Some (Ok r2, st2)
    /\ r = Improved.scored r2
    /\ calls st'
       = (Improved.link_calls w pid ++ Improved.store_call r :: calls st2)%list
    /\ clock st' = clock st2.
Proof.
  unfold Improved.run_enrichment.
  set (r0 := Improved.new_record _ pid "In Progress" None).
  unfold bind at 1.
  destruct (Improved.apollo_step w pd r0 st) as [[[r1|msg] st1]|] eqn:Ha;
    try discriminate.
  unfold bind at 1.
  destruct (Improved.linkedin_step w pd r1 st1) as [[[r2|msg] st2]|] eqn:Hl;
    try discriminate.
  unfold Improved._store_enrichment_record, Improved.link_calls.
  unfold bind. cbn [log ret].
  intros Hrun. exists r1, r2, st1, st2.
  split; [reflexivity|]. split; [exact Hl|].
  destruct (w_store w) as [page|].
  - destruct (negb (String.eqb page "")); cbn in Hrun;
      injection Hrun as <- <-; repeat split.
  - injection Hrun as <- <-. repeat split.
Qed.

Lemma attempt_trace (w : World) (pid : string) (pd : dict)
    (st st' : State) (r : Improved.EnrichmentRecord) :
  Improved.run_enrichment w pid pd st = Some (Ok r, st') ->
  exists events,
    calls st'
      = (Improved.link_calls w pid
         ++ Improved.store_call r :: events ++ calls st)%list
    /\ store_calls events = []
    /\ dispatches events = Improved.requested_jobs pd
    /\ clock st <= clock st'.
Proof.
  intros Hrun.
  destruct (attempt_anatomy _ _ _ _ _ _ Hrun)
    as (r1 & r2 & st1 & st2 & Ha & Hl & _ & Hcalls & Hclock).
  destruct (provider_step_trace Improved.ContactProvider _ _ _ _ _ _ Ha)
    as (newA & HcA & HdA & HsA & HkA).
  destruct (provider_step_trace Improved.ProfileProvider _ _ _ _ _ _ Hl)
    as (newL & HcL & HdL & HsL & HkL).
  exists (newL ++ newA)%list.
  split; [rewrite Hcalls, HcL, HcA, <- app_assoc; reflexivity|].
  rewrite store_calls_app, dispatches_app, HsA, HsL, HdA, HdL.
  repeat split. lia.
Qed.

(** X2: the jobs of an attempt are settled by the person's data alone.
    An attempt submits at most one job per provider, the contact job
    first: a contact job exactly when the person has a primary email or an
    employer and the search request can be built, a profile job exactly
    when the person has a profile URL, whatever the providers answer. *)
Theorem one_job_per_provider (w : World) (pid : string) (pd : dict)
    (st : State) :
  w_person w pid = Some pd ->
  Improved.gate_passes w pid st = true ->
  exists r st',
    Improved.enrich_person_complete w pid st = Some (Ok r, st')
    /\ dispatches (calls st')
       = (Improved.requested_jobs pd ++ dispatches (calls st))%list
    /\ (length (Improved.requested_jobs pd) <= 2)%nat.
Proof.
  intros Hperson Hgate.
  rewrite (attempt_unfolds w pid pd st Hperson Hgate).
  destruct (run_enrichment_returns w pid pd st) as (r2 & st' & Hrun & _).
  exists (Improved.scored r2), st'. split; [exact Hrun|].
  destruct (attempt_trace _ _ _ _ _ _ Hrun) as (events & Hc & Hs & Hd & _).
  split.
  - rewrite Hc.
    change (Improved.link_calls w pid
            ++ Improved.store_call (Improved.scored r2)
               :: events ++ calls st)%list
      with (Improved.link_calls w pid
            ++ [Improved.store_call (Improved.scored r2)]
            ++ events ++ calls st)%list.
    rewrite !dispatches_app, Hd.
    assert (dispatches (Improved.link_calls w pid) = []) as ->.
    { unfold Improved.link_calls. destruct (w_store w) as [page|];
        [destruct (negb (String.eqb page ""))|]; reflexivity. }
    reflexivity.
  - unfold Improved.requested_jobs. rewrite length_app.
    destruct (Improved.provider_request Improved.ProfileProvider pd),
             (Improved.provider_request Improved.ContactProvider pd);
      cbn; lia.
Qed.

Lemma one_job_per_provider_witness :
  exists r st',
    Improved.enrich_person_complete Samples.w_both "p1" Samples.st0
      = Some (Ok r, st')
    /\ dispatches (calls st')
       = (Improved.requested_jobs Samples.person_both
          ++ dispatches (calls Samples.st0))%list
    /\ (length (Improved.requested_jobs Samples.person_both) <= 2)%nat.
Proof.
  exact (one_job_per_provider Samples.w_both "p1" Samples.person_both
           Samples.st0 eq_refl eq_refl).
Defined.

(** X3: an attempt writes to the record store once all provider work is
    over, and only then: one page creation, carrying the name, id, status,
    confidence and score of the very record it returns, followed by one
    relation update exactly when the store returned a non-empty page
    id. *)
Theorem stores_once_what_it_returns (w : World) (pid : string) (pd : dict)
    (st : State) :
  w_person w pid = Some pd ->
  Improved.gate_passes w pid st = true ->
  exists r st' events,
    Improved.enrich_person_complete w pid st = Some (Ok r, st')
    /\ calls st'
       = (Improved.link_calls w pid
          ++ Improved.store_call r :: events ++ calls st)%list
    /\ store_calls events = [].
Proof.
  intros Hperson Hgate.
  rewrite (attempt_unfolds w pid pd st Hperson Hgate).
  destruct (run_enrichment_returns w pid pd st) as (r2 & st' & Hrun & _).
  destruct (attempt_trace _ _ _ _ _ _ Hrun) as (events & Hc & Hs & _).
  exists (Improved.scored r2), st', events.
  split; [exact Hrun|]. split; assumption.
Qed.

Lemma stores_once_what_it_returns_witness :
  exists r st' events,
    Improved.enrich_person_complete Samples.w_both "p1" Samples.st0
      = Some (Ok r, st')
    /\ calls st'
       = (Improved.link_calls Samples.w_both "p1"
          ++ Improved.store_call r :: events ++ calls Samples.st0)%list
    /\ store_calls events = [].
Proof.
  exact (stores_once_what_it_returns Samples.w_both "p1" Samples.person_both
           Samples.st0 eq_refl eq_refl).
Defined.

(** *** The calls an attempt can make *)






(** *** The error list of an attempt *)

Lemma provider_step_shape (p : Improved.provider) (w : World) (pd : dict)
    (r r' : Improved.EnrichmentRecord) (st st' : State) :
  Improved.provider_step p w pd r st = Some (Ok r', st') ->
  match p with
  | Improved.ContactProvider =>
      (exists data, r' = Improved.set_apollo_data r data)
      \/ (exists msg,
            r' = Improved.append_error r (Improved.apollo_error msg))
  | Improved.ProfileProvider =>
      (exists data, r' = Improved.set_linkedin_data r data)
      \/ (exists msg,
            r' = Improved.append_error r (Improved.linkedin_error msg))
  end.
Proof.
  destruct p; cbn [Improved.provider_step].
  - unfold Improved.apollo_step.
    destruct (truthy (get pd "primary_email") || truthy (get pd "employer")).
    + unfold catch, bind.
      destruct (Improved._run_apollo_enrichment_safe w pd st)
        as [[[data|msg] st1]|]; unfold ret; intros [= <- <-]; eauto.
    + intros [= <- <-]. left. exists (Improved.apollo_data r).
      destruct r; reflexivity.
  - unfold Improved.linkedin_step.
    destruct (truthy (get pd "linkedin")).
    + unfold catch, bind.
      destruct (Improved._run_linkedin_enrichment_safe w pd st)
        as [[[data|msg] st1]|]; unfold ret; intros [= <- <-]; eauto.
    + intros [= <- <-]. left. exists (Improved.linkedin_data r).
      destruct r; reflexivity.
Qed.

(** X5: the error list of a returned record.  For an id that is not in
    the people database it is the single entry [Person not found]; when
    the gate skips it is absent.  When the attempt runs it holds at most
    one entry per provider, the contact provider's first: it is absent,
    or one [Apollo enrichment failed: ...] entry, or one
    [LinkedIn enrichment failed: ...] entry, or both in that order. *)
Theorem at_most_one_error_per_provider (w : World) (pid : string)
    (st st' : State) (r : Improved.EnrichmentRecord) :
  Improved.enrich_person_complete w pid st = Some (Ok r, st') ->
  match w_person w pid with
  | None => Improved.errors r = Some ["Person not found"]
  | Some _ =>
      if Improved.gate_passes w pid st then
        Improved.errors r = None
        \/ (exists a, Improved.errors r = Some [Improved.apollo_error a])
        \/ (exists l, Improved.errors r = Some [Improved.linkedin_error l])
        \/ (exists a l,
              Improved.errors r
              = Some [Improved.apollo_error a; Improved.linkedin_error l])
      else Improved.errors r = None
  end.
Proof.
  assert (Hrun : forall pd,
            Improved.run_enrichment w pid pd st = Some (Ok r, st') ->
            Improved.errors r = None
            \/ (exists a, Improved.errors r = Some [Improved.apollo_error a])
            \/ (exists l, Improved.errors r = Some [Improved.linkedin_error l])
            \/ (exists a l,
                  Improved.errors r
                  = Some [Improved.apollo_error a; Improved.linkedin_error l])).
  { intros pd Hrun.
    destruct (attempt_anatomy _ _ _ _ _ _ Hrun)
      as (r1 & r2 & st1 & st2 & Ha & Hl & Hr & _).
    rewrite Hr. destruct (scored_fields r2) as (_ & _ & _ & _ & _ & ->).
    pose proof (provider_step_shape Improved.ContactProvider _ _ _ _ _ _ Ha)
      as [[data ->]|[a ->]];
    pose proof (provider_step_shape Improved.ProfileProvider _ _ _ _ _ _ Hl)
      as [[data' ->]|[l ->]]; cbn; eauto 10. }
  unfold Improved.enrich_person_complete, Improved.gate_passes.
  destruct (w_person w pid) as [pd|].
  - destruct (w_existing w pid) as [page|]; [|apply Hrun].
    unfold bind. cbn [now].
    destruct (Improved._should_update_enrichment w (clock st) page);
      cbn [negb]; [apply Hrun|].
    unfold ret. intros [= <- _]. reflexivity.
  - unfold ret. intros [= <- _]. reflexivity.
Qed.

Lemma at_most_one_error_per_provider_witness :
  exists r st',
    Improved.enrich_person_complete Samples.w_malformed "p1" Samples.st0
      = Some (Ok r, st')
    /\ (Improved.errors r = None
        \/ (exists a, Improved.errors r = Some [Improved.apollo_error a])
        \/ (exists l, Improved.errors r = Some [Improved.linkedin_error l])
        \/ (exists a l,
              Improved.errors r
              = Some [Improved.apollo_error a; Improved.linkedin_error l])).
Proof.
  destruct (Improved.enrich_person_complete Samples.w_malformed "p1"
              Samples.st0) as [[[r|msg] st']|] eqn:Hrun;
    [|vm_compute in Hrun; discriminate..].
  exists r, st'. split; [reflexivity|].
  exact (at_most_one_error_per_provider Samples.w_malformed "p1"
           Samples.st0 st' r Hrun).
Defined.

Example malformed_replies_give_two_errors :
  Samples.summary
    (Improved.enrich_person_complete Samples.w_malformed "p1" Samples.st0)
  = Some (0, "Low", "Failed",
          Some ["Apollo enrichment failed: 'data'";
                "LinkedIn enrichment failed: 'data'"], 0, 0%nat).
Proof. vm_compute. reflexivity. Qed.

(** *** Polls that succeed *)

Lemma started_iteration_in_fuel (w : World) (run_id : string) (W : Z)
    (j : nat) :
  elapsed_before w run_id j < W * second -> (S j < poll_fuel W)%nat.
Proof.
  intros Hlt. pose proof (elapsed_before_lower w run_id j) as Hlow.
  unfold poll_fuel, poll_interval, second in *.
  assert (Z.of_nat j * 15 < W) by lia.
  assert (0 <= W) by lia.
  pose proof (Z.mod_pos_bound W 15 ltac:(lia)).
  pose proof (Z.div_mod W 15 ltac:(lia)).
  assert (0 <= W / 15) by (apply Z.div_pos; lia).
  apply Nat2Z.inj_lt. rewrite Nat2Z.inj_add, Z2Nat.id by lia. lia.
Qed.

Section SucceedingPoll.

Variables (w : World) (run_id : string) (start_time W : Z).
Variables (k : nat) (fetch : fetch_reply).
Hypothesis succeeding : succeeds_at w run_id W k fetch.

Lemma poll_loop_succeeds (d : nat) :
  forall (j fuel : nat) (st : State),
    (j + d = k)%nat -> (d < fuel)%nat ->
    clock st - start_time = elapsed_before w run_id j ->
    exists st',
      poll_loop fuel w run_id start_time W j st
        = Some (fetch_outcome fetch, st')
      /\ status_checks (calls st') = (status_checks (calls st) + S d)%nat
      /\ dataset_fetches (calls st') = (dataset_fetches (calls st) + 1)%nat
      /\ clock st' - start_time
         = elapsed_before w run_id k + status_time (w_status w run_id k)
           + fetch_time fetch.
Proof.
  destruct succeeding as (Hpending & Hstart & rt & Hreply).
  induction d as [|d IH]; intros j fuel st Hj Hfuel Hclock;
    (destruct fuel as [|fuel]; [lia|]);
    cbn [poll_loop]; unfold bind at 1; cbn [now]; rewrite Hclock.
  - replace j with k in * by lia.
    destruct (Z.ltb_spec (elapsed_before w run_id k) (W * second)); [|lia].
    unfold bind at 1. cbn [log]. rewrite Hreply.
    unfold bind at 1. cbn [wait value_is_str]. rewrite String.eqb_refl.
    unfold fetch_results, bind. cbn [log wait].
    destruct fetch as [rt' items|rt'|rt' msg]; cbn;
      (eexists; split; [reflexivity|]); cbn;
      unfold status_checks, dataset_fetches; cbn; repeat split; lia.
  - destruct (Hpending j ltac:(lia)) as [Hpend Hlt].
    destruct (Z.ltb_spec (elapsed_before w run_id j) (W * second)); [|lia].
    unfold bind at 1. cbn [log].
    destruct (w_status w run_id j) as [rtj status fetchj|rtj|rtj msg] eqn:Hj';
      cbn [is_pending] in Hpend; try discriminate.
    apply andb_true_iff in Hpend. destruct Hpend as [Hs Hf].
    apply negb_true_iff in Hs, Hf.
    unfold bind at 1. cbn [wait]. rewrite Hs, Hf.
    unfold bind at 1. cbn [log]. unfold bind at 1. cbn [wait].
    match goal with
    | |- context [poll_loop fuel w run_id start_time W (S j) ?s] =>
        destruct (IH (S j) fuel s ltac:(lia) ltac:(lia))
          as (st' & Hrun & Hc & Hfe & Hclk)
    end.
    { cbn [elapsed_before]. rewrite Hj'. cbn. lia. }
    exists st'. split; [exact Hrun|].
    rewrite Hc, Hfe. unfold status_checks, dataset_fetches. cbn.
    repeat split; lia.
Qed.

End SucceedingPoll.

(** X6: when the run is found [SUCCEEDED] at check [k], the poll makes
    exactly [k + 1] status checks and one dataset fetch and returns what
    the fetch gave (the items, no data if the fetch failed at the HTTP
    level); it lasts exactly the [k] sleeps plus the round trips made. *)
Theorem succeeding_poll_returns_dataset (w : World) (run_id : string)
    (W : Z) (k : nat) (fetch : fetch_reply) (st : State) :
  succeeds_at w run_id W k fetch ->
  exists st',
    _get_actor_results w run_id W st = Some (fetch_outcome fetch, st')
    /\ status_checks (calls st') = (status_checks (calls st) + S k)%nat
    /\ dataset_fetches (calls st') = (dataset_fetches (calls st) + 1)%nat
    /\ clock st' - clock st
       = elapsed_before w run_id k + status_time (w_status w run_id k)
         + fetch_time fetch.
Proof.
  intros Hok. unfold _get_actor_results, bind. cbn [now].
  apply (poll_loop_succeeds w run_id (clock st) W k fetch Hok k 0%nat).
  - lia.
  - destruct Hok as (_ & Hstart & _).
    pose proof (started_iteration_in_fuel w run_id W k Hstart). lia.
  - simpl. lia.
Qed.

Lemma succeeds_third_succeeds :
  succeeds_at Samples.w_succeeds "run1" 180 2
    (FetchItems 200 [Samples.raw_contact]).
Proof.
  split; [|split].
  - intros j Hj.
    do 2 (destruct j as [|j];
          [split; [reflexivity | vm_compute; reflexivity]|]).
    lia.
  - vm_compute. reflexivity.
  - exists 300%N. reflexivity.
Defined.

Lemma succeeding_poll_returns_dataset_witness :
  exists st',
    _get_actor_results Samples.w_succeeds "run1" 180 Samples.st0
      = Some (Ok (Some [Samples.raw_contact]), st')
    /\ status_checks (calls st') = 3%nat
    /\ dataset_fetches (calls st') = 1%nat
    /\ clock st' - 0 = 30001500.
Proof.
  exact (succeeding_poll_returns_dataset Samples.w_succeeds "run1" 180 2
           (FetchItems 200 [Samples.raw_contact]) Samples.st0
           succeeds_third_succeeds).
Defined.

(** X7: a provider step whose job succeeds stores the first item of the
    dataset (normalised for the contact provider, as it is for the profile
    provider) and appends no error; an empty dataset leaves the provider
    without data, again without an error. *)
Theorem succeeding_pipeline_keeps_first_item
    (p : Improved.provider) (w : World) (pd : dict)
    (record : Improved.EnrichmentRecord) (st : State)
    (input : dict) (run_id : string) (k : nat) (rt : N) (items : list dict) :
  Improved.provider_request p pd = Some input ->
  w_run w (Improved.provider_actor p) = RunStarted run_id ->
  succeeds_at w run_id 180 k (FetchItems rt items) ->
  exists r' st',
    Improved.provider_step p w pd record st = Some (Ok r', st')
    /\ Improved.provider_data p r' = Improved.provider_result p w items
    /\ Improved.errors r' = Improved.errors record
    /\ dispatches (calls st')
       = Dispatch (Improved.provider_actor p) input :: dispatches (calls st)
    /\ dataset_fetches (calls st') = (dataset_fetches (calls st) + 1)%nat.
Proof.
  intros Hreq Hrun Hok.
  destruct p; cbn [Improved.provider_request Improved.provider_actor
                   Improved.provider_step Improved.provider_data] in *.
  - unfold Improved.apollo_step.
    destruct (truthy (get pd "primary_email") || truthy (get pd "employer"));
      [|discriminate].
    destruct (Improved._prepare_apollo_search pd) as [[input'|]|msg] eqn:Hprep;
      try discriminate.
    injection Hreq as ->.
    pose proof (prepared_input_truthy pd input Hprep) as Htruthy.
    unfold catch. unfold bind at 1.
    unfold Improved._run_apollo_enrichment_safe.
    unfold bind at 1, lift. rewrite Hprep, Htruthy. cbn [negb].
    unfold bind at 1, _run_apify_actor. unfold bind at 1. cbn [log].
    rewrite Hrun. cbn [ret]. unfold bind at 1.
    destruct (succeeding_poll_returns_dataset w run_id 180 k
                (FetchItems rt items)
                (emit (Dispatch Improved.apollo_actor_id input) st) Hok)
      as (st' & Hpoll & _ & Hfetch & _).
    rewrite Hpoll. cbn [fetch_outcome].
    assert (Hd : dispatches (calls st')
                 = Dispatch Improved.apollo_actor_id input
                   :: dispatches (calls st)).
    { destruct (get_actor_results_trace _ _ _ _ _ _ Hpoll)
        as (new & Hc & Hd & _).
      rewrite Hc, dispatches_app, Hd. reflexivity. }
    destruct items as [|first rest]; cbn [ret];
      (eexists; exists st'; split; [reflexivity|]);
      repeat split; assumption.
  - unfold Improved.linkedin_step.
    destruct (truthy (get pd "linkedin")) eqn:Hurl; [|discriminate].
    injection Hreq as <-.
    unfold catch. unfold bind at 1.
    unfold Improved._run_linkedin_enrichment_safe. rewrite Hurl. cbn [negb].
    unfold bind at 1, _run_apify_actor. unfold bind at 1. cbn [log].
    rewrite Hrun. cbn [ret]. unfold bind at 1.
    match goal with
    | |- context [_get_actor_results w run_id 180 ?s] =>
        destruct (succeeding_poll_returns_dataset w run_id 180 k
                    (FetchItems rt items) s Hok)
          as (st' & Hpoll & _ & Hfetch & _)
    end.
    rewrite Hpoll. cbn [fetch_outcome].
    assert (Hd : dispatches (calls st')
                 = Dispatch Improved.linkedin_actor_id
                     (Improved.linkedin_input (get pd "linkedin"))
                   :: dispatches (calls st)).
    { destruct (get_actor_results_trace _ _ _ _ _ _ Hpoll)
        as (new & Hc & Hd & _).
      rewrite Hc, dispatches_app, Hd. reflexivity. }
    destruct items as [|first rest]; cbn [ret];
      (eexists; exists st'; split; [reflexivity|]);
      repeat split; assumption.
Qed.

Lemma succeeding_pipeline_keeps_first_item_witness :
  exists r' st',
    Improved.apollo_step Samples.w_succeeds Samples.person_email
      (Improved.new_record (VStr "Ann Lee") "p1" "In Progress" None)
      Samples.st0 = Some (Ok r', st')
    /\ Improved.apollo_data r'
       = Some (Improved._process_apollo_results Samples.w_succeeds
                 [Samples.raw_contact])
    /\ Improved.errors r' = None
    /\ length (dispatches (calls st')) = 1%nat
    /\ dataset_fetches (calls st') = 1%nat.
Proof.
  edestruct (succeeding_pipeline_keeps_first_item Improved.ContactProvider
               Samples.w_succeeds Samples.person_email
               (Improved.new_record (VStr "Ann Lee") "p1" "In Progress" None)
               Samples.st0)
    as (r' & st' & H1 & H2 & H3 & H4 & H5).
  - vm_compute. reflexivity.
  - reflexivity.
  - exact succeeds_third_succeeds.
  - exists r', st'. split; [exact H1|]. split; [exact H2|].
    split; [exact H3|]. split; [rewrite H4; reflexivity | exact H5].
Defined.



(** *** Scores of what the providers returned *)

(** X9: the confidence is [High] only when both providers produced data:
    the contact signals add up to 60 and the profile signals to 40, below
    the threshold of 70 on their own. *)
Theorem high_confidence_needs_both_providers (r : Improved.EnrichmentRecord) :
  Improved._assess_data_confidence r = "High" ->
  opt_truthy (Improved.apollo_data r) = true
  /\ opt_truthy (Improved.linkedin_data r) = true.
Proof.
  unfold Improved._assess_data_confidence, opt_truthy.
  destruct (Improved.apollo_data r) as [a|];
    [destruct (dict_truthy a);
     [destruct (truthy (get a "email")), (truthy (get a "phone")),
               (truthy (get a "company"))|]|];
    (destruct (Improved.linkedin_data r) as [l|];
     [destruct (dict_truthy l);
      [destruct (truthy (get l "headline")), (truthy (get l "experience")),
                (truthy (get l "education"))|]|]);
    cbn; intros H; try discriminate H; split; reflexivity.
Qed.

Lemma high_confidence_needs_both_providers_witness :
  opt_truthy (Improved.apollo_data
                (Samples.improved_with (Some Samples.contact_email_phone)))
    = true
  /\ opt_truthy (Improved.linkedin_data
                   (Samples.improved_with (Some Samples.contact_email_phone)))
     = true.
Proof.
  apply (high_confidence_needs_both_providers
           (Samples.improved_with (Some Samples.contact_email_phone))).
  vm_compute. reflexivity.
Defined.

Lemma processed_is_truthy (w : World) (raw : dict) (rest : list dict) :
  dict_truthy (Improved._process_apollo_results w (raw :: rest)) = true.
Proof. apply dict_truthy_insert. Qed.

Lemma processed_checklist (w : World) (raw : dict) (rest : list dict) :
  get (Improved._process_apollo_results w (raw :: rest)) <$> Improved.apollo_fields
  = get raw <$> Improved.raw_checklist_keys.
Proof. reflexivity. Qed.

(** X10: normalisation followed by scoring, for a record that holds the
    contact provider's result only.  The completeness score is the share
    of the six raw keys [email], [phone_number], [title],
    [organization_name], [city] and [linkedin_url] that are filled in the
    first raw result, and the confidence is bucketed from the raw
    [email], [phone_number] and [organization_name] alone; the other raw
    keys and the other results do not count. *)
Theorem contact_only_scores_from_raw (w : World) (raw : dict)
    (rest : list dict) (r : Improved.EnrichmentRecord) :
  Improved.apollo_data r
    = Some (Improved._process_apollo_results w (raw :: rest)) ->
  Improved.linkedin_data r = None ->
  Improved._calculate_completeness r
    = 100 * Z.of_nat (length (filter (fun v => truthy v = true)
                                (get raw <$> Improved.raw_checklist_keys)))
      / 6
  /\ Improved._assess_data_confidence r
     = bucket 70 40
         (indicator (truthy (get raw "email")) 30
          + indicator (truthy (get raw "phone_number")) 20
          + indicator (truthy (get raw "organization_name")) 10).
Proof.
  intros Ha Hl. split.
  - unfold Improved._calculate_completeness. cbv zeta.
    rewrite counters_spec.
    assert (Hcheck : Improved.checklist r
                     = get raw <$> Improved.raw_checklist_keys).
    { unfold Improved.checklist, Improved.provider_checklist.
      rewrite Ha, Hl. cbn [opt_truthy]. rewrite processed_is_truthy.
      rewrite app_nil_r. exact (processed_checklist w raw rest). }
    pose proof (filled_le_total r) as Hf.
    unfold Improved.total_checklist_count, Improved.filled_count in *.
    rewrite Hcheck in *. rewrite length_fmap in *.
    change (Z.of_nat (length Improved.raw_checklist_keys)) with 6 in *.
    cbn [fst snd]. change (6 >? 0) with true. cbv iota.
    apply percent_of_floor; lia.
  - rewrite improved_confidence_as_bucket. f_equal.
    unfold Improved.signal_total.
    cbn [foldr Improved.all_signals Improved.signal_present
         Improved.signal_points].
    rewrite Ha, Hl. unfold Improved.field_present.
    rewrite processed_is_truthy. cbn [andb indicator].
    change (get (Improved._process_apollo_results w (raw :: rest)) "email")
      with (get raw "email").
    change (get (Improved._process_apollo_results w (raw :: rest)) "phone")
      with (get raw "phone_number").
    change (get (Improved._process_apollo_results w (raw :: rest)) "company")
      with (get raw "organization_name").
    unfold indicator. lia.
Qed.

Lemma contact_only_scores_from_raw_witness :
  Improved._calculate_completeness
    (Improved.mkRecord (VStr "Ann Lee") "p1"
       (Some (Improved._process_apollo_results Samples.w_succeeds
                [Samples.raw_contact])) None "In Progress" "Medium" 0 None)
    = 100 * Z.of_nat (length (filter (fun v => truthy v = true)
                                (get Samples.raw_contact
                                   <$> Improved.raw_checklist_keys)))
      / 6
  /\ Improved._assess_data_confidence
       (Improved.mkRecord (VStr "Ann Lee") "p1"
          (Some (Improved._process_apollo_results Samples.w_succeeds
                   [Samples.raw_contact])) None "In Progress" "Medium" 0 None)
     = bucket 70 40
         (indicator (truthy (get Samples.raw_contact "email")) 30
          + indicator (truthy (get Samples.raw_contact "phone_number")) 20
          + indicator (truthy (get Samples.raw_contact "organization_name"))
              10).
Proof.
  apply (contact_only_scores_from_raw Samples.w_succeeds Samples.raw_contact []);
    reflexivity.
Defined.

(** *** The contact search request *)




(** *** The enhanced service *)

Lemma count_network_spec (e : Enhanced.EnhancedEnrichmentRecord) (t f : Z) :
  Enhanced.count_network e (t, f)
  = (t + (if Enhanced.has_connections e then 3 else 0),
     f + (if Enhanced.has_connections e
          then 1 + (if opt_truthy (Enhanced.network_analysis e) then 2 else 0)
          else 0)).
Proof.
  unfold Enhanced.count_network, Enhanced.has_connections.
  destruct (Enhanced.linkedin_connections e) as [[|c cs]|];
    try (f_equal; lia).
  cbv zeta. cbn [fst snd].
  replace (Z.of_nat (length (c :: cs)) >? 0) with true
    by (symmetry; apply Z.gtb_lt; cbn [length]; lia).
  destruct (opt_truthy (Enhanced.network_analysis e)); f_equal; lia.
Qed.

Lemma provider_checklist_length (data : option dict) (fields : list string) :
  length (Improved.provider_checklist data fields)
  = if opt_truthy data then length fields else 0%nat.
Proof.
  unfold Improved.provider_checklist.
  destruct (opt_truthy data); [apply length_fmap | reflexivity].
Qed.

(** X12: the enhanced completeness score is the floor of 100 times the
    filled share of its checklist: seven contact fields, five profile
    fields and three network items, each block counted only when its data
    are non-empty.  It lies between 0 and 100, and a connection list on
    its own scores 33 without a network analysis and 100 with one, never
    0. *)
Theorem enhanced_completeness_is_floor_percentage
    (e : Enhanced.EnhancedEnrichmentRecord) :
  Enhanced._calculate_enhanced_completeness e
    = (if Enhanced.checklist_total e =? 0 then 0
       else 100 * Enhanced.checklist_filled e / Enhanced.checklist_total e)
  /\ 0 <= Enhanced._calculate_enhanced_completeness e <= 100
  /\ 0 <= Enhanced.checklist_filled e
  /\ Enhanced.checklist_filled e <= Enhanced.checklist_total e
  /\ Enhanced.checklist_total e <= 15
  /\ (forall n i c cs analysis sources st conf score errs,
        Enhanced._calculate_enhanced_completeness
          (Enhanced.mkEnhanced n i None None (Some (c :: cs)) analysis
             sources st conf score errs)
        = if opt_truthy analysis then 100 else 33).
Proof.
  assert (Hcount :
    Enhanced.count_network e
      (Improved.count_provider (Enhanced.linkedin_data e)
         Enhanced.linkedin_fields
         (Improved.count_provider (Enhanced.apollo_data e)
            Enhanced.apollo_fields (0, 0)))
    = (Enhanced.checklist_total e, Enhanced.checklist_filled e)).
  { rewrite !count_provider_spec, count_network_spec.
    unfold Enhanced.checklist_total, Enhanced.checklist_filled.
    rewrite !provider_checklist_length.
    destruct (opt_truthy (Enhanced.apollo_data e)),
             (opt_truthy (Enhanced.linkedin_data e));
      cbn [length Enhanced.apollo_fields Enhanced.linkedin_fields];
      f_equal; lia. }
  assert (Hrange : 0 <= Enhanced.checklist_filled e
                   /\ Enhanced.checklist_filled e
                      <= Enhanced.checklist_total e
                   /\ Enhanced.checklist_total e <= 15).
  { unfold Enhanced.checklist_total, Enhanced.checklist_filled.
    pose proof (length_filter (fun v => truthy v = true)
                  (Improved.provider_checklist (Enhanced.apollo_data e)
                     Enhanced.apollo_fields)) as Ha.
    pose proof (length_filter (fun v => truthy v = true)
                  (Improved.provider_checklist (Enhanced.linkedin_data e)
                     Enhanced.linkedin_fields)) as Hl.
    rewrite provider_checklist_length in Ha, Hl.
    destruct (opt_truthy (Enhanced.apollo_data e)),
             (opt_truthy (Enhanced.linkedin_data e)),
             (Enhanced.has_connections e),
             (opt_truthy (Enhanced.network_analysis e));
      cbn [length Enhanced.apollo_fields Enhanced.linkedin_fields] in Ha, Hl;
      lia. }
  assert (Hscore : Enhanced._calculate_enhanced_completeness e
                   = (if Enhanced.checklist_total e =? 0 then 0
                      else 100 * Enhanced.checklist_filled e
                           / Enhanced.checklist_total e)).
  { unfold Enhanced._calculate_enhanced_completeness. cbv zeta.
    rewrite Hcount. cbn [fst snd].
    destruct (Z.eqb_spec (Enhanced.checklist_total e) 0) as [H0|H0].
    - rewrite H0. reflexivity.
    - replace (Enhanced.checklist_total e >? 0) with true
        by (symmetry; apply Z.gtb_lt; lia).
      apply percent_of_floor; lia. }
  split; [exact Hscore|].
  split; [|split; [|split; [|split]]; try apply Hrange].
  - rewrite Hscore.
    destruct (Z.eqb_spec (Enhanced.checklist_total e) 0) as [H0|H0]; [lia|].
    split.
    + apply Z.div_pos; lia.
    + apply Z.div_le_upper_bound; lia.
  - intros. destruct (opt_truthy analysis) eqn:Han;
      unfold Enhanced._calculate_enhanced_completeness,
        Enhanced.count_network; cbn; rewrite Han;
      vm_compute; reflexivity.
Qed.

Lemma put_if_lookup_eq (cond : bool) (k : string) (v : value) (m : dict) :
  Enhanced.put_if cond k v m !! k = if cond then Some v else m !! k.
Proof.
  unfold Enhanced.put_if. destruct cond; [apply lookup_insert_eq | reflexivity].
Qed.

Ltac criteria_lookup :=
  repeat first
    [ rewrite put_if_lookup_eq
    | rewrite put_if_lookup_ne by discriminate
    | rewrite lookup_insert_eq
    | rewrite lookup_insert_ne by discriminate
    | rewrite lookup_empty ].

(** The builder after its name block, which leaves no entry under any of
    the later keys. *)
Lemma criteria_after_names (c1 : dict) (pd : dict) :
  (forall k, k <> "first_name" -> k <> "last_name" -> c1 !! k = None) ->
  let pget := get pd in
  let field (src : string) :=
    if truthy (pget src) then Some (VList [pget src]) else None in
  let rest :=
    let c2 := Enhanced.put_if (truthy (pget "employer")) "organization_names"
                (VList [pget "employer"]) c1 in
    let c3 := Enhanced.put_if (truthy (pget "position")) "person_titles"
                (VList [pget "position"]) c2 in
    let c4 := Enhanced.put_if (truthy (pget "primary_email")) "email"
                (pget "primary_email") c3 in
    let c5 := Enhanced.put_if (truthy (pget "city")) "person_locations"
                (VList [pget "city"]) c4 in
    match
      (if truthy (pget "state") then
         match c5 !! "person_locations" with
         | None => Raise "'person_locations'"
         | Some (VList l) =>
             Ok (<["person_locations" := VList (l ++ [pget "state"])]> c5)
         | Some other => Raise ("'" +:+ type_name other
                                +:+ "' object has no attribute 'append'")
         end
       else Ok c5)
    with
    | Raise msg => Raise msg
    | Ok c6 =>
        let c7 := Enhanced.put_if (truthy (pget "industry"))
                    "organization_industries" (VList [pget "industry"]) c6 in
        let c8 := Enhanced.put_if (truthy (pget "undergrad_school"))
                    "education" (VList [pget "undergrad_school"]) c7 in
        Ok (Enhanced.put_if (truthy (pget "military")) "keywords"
              Enhanced.military_keywords c8)
    end in
  match rest with
  | Raise msg =>
      truthy (pget "state") = true /\ truthy (pget "city") = false
      /\ msg = "'person_locations'"
  | Ok c =>
      (truthy (pget "state") = true -> truthy (pget "city") = true)
      /\ c !! "organization_names" = field "employer"
      /\ c !! "person_titles" = field "position"
      /\ c !! "email"
         = (if truthy (pget "primary_email") then Some (pget "primary_email")
            else None)
      /\ c !! "person_locations"
         = (if truthy (pget "city")
            then Some (VList (pget "city"
                              :: if truthy (pget "state")
                                 then [pget "state"] else []))
            else None)
      /\ c !! "organization_industries" = field "industry"
      /\ c !! "education" = field "undergrad_school"
      /\ c !! "keywords"
         = (if truthy (pget "military") then Some Enhanced.military_keywords
            else None)
      /\ c !! "first_name" = c1 !! "first_name"
      /\ c !! "last_name" = c1 !! "last_name"
  end.
Proof.
  intros Hc1. cbv zeta.
  assert (H1 : c1 !! "organization_names" = None)
    by (apply Hc1; discriminate).
  assert (H2 : c1 !! "person_titles" = None) by (apply Hc1; discriminate).
  assert (H3 : c1 !! "email" = None) by (apply Hc1; discriminate).
  assert (H4 : c1 !! "person_locations" = None)
    by (apply Hc1; discriminate).
  assert (H5 : c1 !! "organization_industries" = None)
    by (apply Hc1; discriminate).
  assert (H6 : c1 !! "education" = None) by (apply Hc1; discriminate).
  assert (H7 : c1 !! "keywords" = None) by (apply Hc1; discriminate).
  destruct (truthy (get pd "state")) eqn:Hstate;
    destruct (truthy (get pd "city")) eqn:Hcity.
  - criteria_lookup. cbn [app].
    repeat split; criteria_lookup;
      rewrite ?H1, ?H2, ?H3, ?H4, ?H5, ?H6, ?H7; reflexivity.
  - change (Enhanced.put_if false "person_locations")
      with (fun (_ : value) (m : dict) => m).
    cbv beta. criteria_lookup. rewrite H4. repeat split.
  - repeat split; try discriminate; criteria_lookup;
      rewrite ?H1, ?H2, ?H3, ?H4, ?H5, ?H6, ?H7; reflexivity.
  - change (Enhanced.put_if false "person_locations")
      with (fun (_ : value) (m : dict) => m).
    cbv beta.
    repeat split; try discriminate; criteria_lookup;
      rewrite ?H1, ?H2, ?H3, ?H4, ?H5, ?H6, ?H7; reflexivity.
Qed.

Lemma split_first_space_spec (n : string) :
  has_space (fst (split_first_space n)) = false
  /\ match snd (split_first_space n) with
     | Some l =>
         has_space n = true
         /\ n = fst (split_first_space n) +:+ " " +:+ l
     | None => has_space n = false /\ n = fst (split_first_space n)
     end.
Proof.
  induction n as [|c rest [IHf IHr]]; [split; [|split]; reflexivity|].
  cbn [split_first_space has_space].
  destruct (Ascii.eqb_spec c " "%char) as [->|Hc].
  - cbn. split; [reflexivity|]. split; reflexivity.
  - destruct (split_first_space rest) as [a b] eqn:Hs. cbn [fst snd] in *.
    split.
    + cbn [has_space]. destruct (Ascii.eqb_spec c " "%char); [easy|exact IHf].
    + destruct b as [l|].
      * destruct IHr as [Hsp Heq]. split; [exact Hsp|].
        change (String c rest = String c (a +:+ " " +:+ l)).
        f_equal. exact Heq.
      * destruct IHr as [Hsp Heq]. split; [exact Hsp|].
        f_equal. exact Heq.
Qed.

(** X13: the enhanced search criteria mirror the person's fields.  The
    builder raises only for a non-empty state without a city, and then
    with [KeyError('person_locations')]; otherwise every optional entry
    is present exactly when its field is non-empty, and the locations
    list the city first and the state second. *)
Theorem criteria_mirror_person_fields (pd : dict) :
  (truthy (get pd "name") = true -> exists n, get pd "name" = VStr n) ->
  match Enhanced._build_comprehensive_apollo_search pd with
  | Raise msg =>
      truthy (get pd "state") = true /\ truthy (get pd "city") = false
      /\ msg = "'person_locations'"
  | Ok c =>
      (truthy (get pd "state") = true -> truthy (get pd "city") = true)
      /\ c !! "organization_names"
         = (if truthy (get pd "employer")
            then Some (VList [get pd "employer"]) else None)
      /\ c !! "person_titles"
         = (if truthy (get pd "position")
            then Some (VList [get pd "position"]) else None)
      /\ c !! "email"
         = (if truthy (get pd "primary_email")
            then Some (get pd "primary_email") else None)
      /\ c !! "person_locations"
         = (if truthy (get pd "city")
            then Some (VList (get pd "city"
                              :: if truthy (get pd "state")
                                 then [get pd "state"] else []))
            else None)
      /\ c !! "organization_industries"
         = (if truthy (get pd "industry")
            then Some (VList [get pd "industry"]) else None)
      /\ c !! "education"
         = (if truthy (get pd "undergrad_school")
            then Some (VList [get pd "undergrad_school"]) else None)
      /\ c !! "keywords"
         = (if truthy (get pd "military")
            then Some Enhanced.military_keywords else None)
  end.
Proof.
  intros Hname. unfold Enhanced._build_comprehensive_apollo_search.
  cbv zeta.
  destruct (truthy (get pd "name")) eqn:Htn.
  - destruct (Hname eq_refl) as [n ->].
    destruct (split_first_space n) as [first rest].
    pose proof (criteria_after_names
                  (<["last_name" := VStr (default "" rest)]>
                     (<["first_name" := VStr first]> ∅)) pd) as H.
    cbv zeta in H.
    match type of H with
    | ?P -> _ => assert (Hp : P)
    end.
    { intros k Hk1 Hk2. rewrite !lookup_insert_ne by congruence.
      apply lookup_empty. }
    specialize (H Hp).
    match type of H with
    | match ?x with _ => _ end => destruct x as [c|msg]
    end.
    + tauto.
    + exact H.
  - pose proof (criteria_after_names ∅ pd) as H. cbv zeta in H.
    match type of H with
    | ?P -> _ => assert (Hp : P)
    end.
    { intros k _ _. apply lookup_empty. }
    specialize (H Hp).
    match type of H with
    | match ?x with _ => _ end => destruct x as [c|msg]
    end.
    + tauto.
    + exact H.
Qed.

Lemma criteria_mirror_person_fields_witness :
  match Enhanced._build_comprehensive_apollo_search Samples.person_located with
  | Raise msg => False
  | Ok c =>
      c !! "person_locations"
      = Some (VList [VStr "Norfolk"; VStr "Virginia"])
      /\ c !! "organization_names" = Some (VList [VStr "Acme"])
      /\ c !! "keywords" = None
  end.
Proof.
  pose proof (criteria_mirror_person_fields Samples.person_located
                (fun _ => ex_intro _ "Ann Lee" eq_refl)) as H.
  destruct (Enhanced._build_comprehensive_apollo_search
              Samples.person_located) as [c|msg].
  - destruct H as (_ & Ho & _ & _ & Hl & _ & _ & Hk).
    split; [exact Hl|]. split; [exact Ho | exact Hk].
  - destruct H as (_ & Hcity & _). vm_compute in Hcity. discriminate.
Defined.

(** X14: the enhanced builder splits a non-empty name at its first space:
    the first name has no space, the last name is the remainder (empty for
    a one-word name), and the two give the name back.  A non-empty name
    that is not a string makes the builder raise an [AttributeError]. *)
Theorem criteria_names_split_at_first_space (pd : dict) :
  truthy (get pd "name") = true ->
  match get pd "name" with
  | VStr n =>
      forall c, Enhanced._build_comprehensive_apollo_search pd = Ok c ->
      exists f l,
        c !! "first_name" = Some (VStr f)
        /\ c !! "last_name" = Some (VStr l)
        /\ has_space f = false
        /\ n = (if has_space n then f +:+ " " +:+ l else f)
        /\ (has_space n = false -> l = "")
  | other =>
      Enhanced._build_comprehensive_apollo_search pd
      = Raise ("'" +:+ type_name other
               +:+ "' object has no attribute 'split'")
  end.
Proof.
  intros Ht.
  destruct (get pd "name") as [| b | z | n | l | d] eqn:Hn;
    try (unfold Enhanced._build_comprehensive_apollo_search; cbv zeta;
         rewrite Hn, Ht; reflexivity).
  intros c Hc.
  unfold Enhanced._build_comprehensive_apollo_search in Hc. cbv zeta in Hc.
  rewrite Hn, Ht in Hc.
  pose proof (split_first_space_spec n) as [Hf Hrest].
  destruct (split_first_space n) as [first rest]. cbn [fst snd] in Hf, Hrest.
  pose proof (criteria_after_names
                (<["last_name" := VStr (default "" rest)]>
                   (<["first_name" := VStr first]> ∅)) pd) as H.
  cbv zeta in H.
  match type of H with
  | ?P -> _ => assert (Hp : P)
  end.
  { intros k Hk1 Hk2. rewrite !lookup_insert_ne by congruence.
    apply lookup_empty. }
  specialize (H Hp). rewrite Hc in H.
  destruct H as (_ & _ & _ & _ & _ & _ & _ & _ & Hfirst & Hlast).
  exists first, (default "" rest).
  rewrite Hfirst, Hlast.
  rewrite lookup_insert_ne by discriminate.
  rewrite !lookup_insert_eq.
  split; [reflexivity|]. split; [reflexivity|]. split; [exact Hf|].
  destruct rest as [l|]; destruct Hrest as [Hsp Heq]; rewrite Hsp.
  - split; [exact Heq | discriminate].
  - split; [exact Heq | reflexivity].
Qed.

Lemma criteria_names_split_at_first_space_witness :
  exists c,
    Enhanced._build_comprehensive_apollo_search Samples.person_located = Ok c
    /\ exists f l,
         c !! "first_name" = Some (VStr f)
         /\ c !! "last_name" = Some (VStr l)
         /\ has_space f = false
         /\ "Ann Lee" = (if has_space "Ann Lee" then f +:+ " " +:+ l else f)
         /\ (has_space "Ann Lee" = false -> l = "").
Proof.
  destruct (Enhanced._build_comprehensive_apollo_search Samples.person_located)
    as [c|msg] eqn:Hc.
  - exists c. split; [reflexivity|].
    exact (criteria_names_split_at_first_space Samples.person_located
             eq_refl c Hc).
  - vm_compute in Hc. discriminate.
Defined.

Lemma fails_at_once_fails :
  fails_at Samples.w_failed "run1" 300 0 JobFailed.
Proof.
  split.
  - intros j Hj. lia.
  - split; [vm_compute; reflexivity|].
    exists 500%N, (VStr "FAILED"), (FetchRequestError 0).
    split; reflexivity.
Defined.

(** X15: in the enhanced service a contact job that fails at the provider,
    is aborted, or outlives the 300 s budget still lists "Apollo" among
    the record's data sources: the phase stores an empty contact
    dictionary, appends the source name, adds no error, and has submitted
    exactly the one job built from the person's criteria. *)
Theorem contact_source_listed_without_data (w : World) (pd : dict)
    (record : Enhanced.EnhancedEnrichmentRecord) (st : State)
    (criteria : dict) (run_id : string) (k : nat) (kind : failure_kind) :
  truthy (get pd "primary_email") || truthy (get pd "employer") = true ->
  Enhanced._build_comprehensive_apollo_search pd = Ok criteria ->
  w_run w Improved.apollo_actor_id = RunStarted run_id ->
  fails_at w run_id 300 k kind ->
  exists r' st',
    Enhanced.apollo_phase w pd record st = Some (Ok r', st')
    /\ Enhanced.apollo_data r' = Some ∅
    /\ opt_truthy (Enhanced.apollo_data r') = false
    /\ Enhanced.external_data_sources r'
       = Some (default [] (Enhanced.external_data_sources record)
               ++ ["Apollo"])%list
    /\ Enhanced.errors r' = Enhanced.errors record
    /\ dispatches (calls st')
       = Dispatch Improved.apollo_actor_id
           (Enhanced.enhanced_apollo_input criteria)
         :: dispatches (calls st).
Proof.
  intros Hguard Hbuild Hrun Hfail.
  unfold Enhanced.apollo_phase. rewrite Hguard.
  unfold catch, bind at 1.
  unfold Enhanced._run_enhanced_apollo_enrichment.
  unfold bind at 1. unfold lift. rewrite Hbuild.
  unfold bind at 1. unfold _run_apify_actor, bind at 1.
  cbn [log]. rewrite Hrun. cbn [ret].
  destruct (failed_poll_returns_none w run_id 300 k kind
              (emit (Dispatch Improved.apollo_actor_id
                       (Enhanced.enhanced_apollo_input criteria)) st) Hfail)
    as (st' & Hpoll & _ & Hd).
  unfold bind at 1. rewrite Hpoll. cbn [ret].
  eexists. exists st'. split; [reflexivity|].
  repeat split. rewrite Hd. reflexivity.
Qed.

Lemma contact_source_listed_without_data_witness :
  exists r' st',
    Enhanced.apollo_phase Samples.w_failed Samples.person_email
      (Enhanced.initial_record Samples.person_email "p1") Samples.st0
    = Some (Ok r', st')
    /\ Enhanced.apollo_data r' = Some ∅
    /\ opt_truthy (Enhanced.apollo_data r') = false
    /\ Enhanced.external_data_sources r' = Some ["Apollo"]
    /\ Enhanced.errors r' = None
    /\ length (dispatches (calls st')) = 1%nat.
Proof.
  destruct (Enhanced._build_comprehensive_apollo_search Samples.person_email)
    as [criteria|msg] eqn:Hc; [|vm_compute in Hc; discriminate].
  destruct (contact_source_listed_without_data Samples.w_failed
              Samples.person_email
              (Enhanced.initial_record Samples.person_email "p1")
              Samples.st0 criteria "run1" 0 JobFailed eq_refl Hc eq_refl
              fails_at_once_fails)
    as (r' & st' & Hrun & Hdata & Hfalsy & Hsrc & Herr & Hd).
  exists r', st'.
  split; [exact Hrun|]. split; [exact Hdata|]. split; [exact Hfalsy|].
  split; [exact Hsrc|]. split; [exact Herr|].
  rewrite Hd. reflexivity.
Defined.

(** X16: the enhanced confidence assessment compares the profile's
    connection count with 100 whatever its type.  For a non-empty profile
    whose count is not a number (absent as [None], or a text such as
    "500+"), the assessment raises a [TypeError] instead of returning a
    label, provided the comparisons before it are on numbers. *)
Theorem non_numeric_connection_count_raises
    (e : Enhanced.EnhancedEnrichmentRecord) (d : dict) :
  Enhanced.linkedin_data e = Some d ->
  dict_truthy d = true ->
  int_of_value (get_or d "connections" (VInt 0)) = None ->
  int_of_value (get_or d "experience_count" (VInt 0)) <> None ->
  (forall a, Enhanced.apollo_data e = Some a -> dict_truthy a = true ->
             int_of_value (get_or a "news_mentions" (VInt 0)) <> None) ->
  Enhanced._assess_enhanced_confidence e
  = Raise ("'>=' not supported between instances of '"
           +:+ type_name (get_or d "connections" (VInt 0))
           +:+ "' and 'int'").
Proof.
  intros Hd Hdt Hconn Hexp Hnews.
  unfold Enhanced._assess_enhanced_confidence. cbv zeta.
  rewrite Hd, Hdt.
  assert (Hs1 : exists s,
    match Enhanced.apollo_data e with
    | Some d0 =>
        if dict_truthy d0 then
          Enhanced.add_when
            (py_gt_int (get_or d0 "news_mentions" (VInt 0)) 0) 5
            (Enhanced.add_when (Ok (truthy (get d0 "intent_data"))) 10
               (Enhanced.add_when (Ok (truthy (get d0 "phone_verified"))) 20
                  (Enhanced.add_when (Ok (truthy (get d0 "email_verified")))
                     25 (Ok 0))))
        else Ok 0
    | None => Ok 0
    end = Ok s).
  { destruct (Enhanced.apollo_data e) as [a|]; [|eexists; reflexivity].
    destruct (dict_truthy a) eqn:Hat; [|eexists; reflexivity].
    specialize (Hnews a eq_refl Hat).
    unfold py_gt_int.
    destruct (int_of_value (get_or a "news_mentions" (VInt 0)));
      [|congruence].
    cbn [Enhanced.add_when]. eexists. reflexivity. }
  destruct Hs1 as [s ->].
  unfold py_ge_int. rewrite Hconn.
  destruct (int_of_value (get_or d "experience_count" (VInt 0)));
    [|congruence].
  cbn [Enhanced.add_when].
  destruct (Enhanced.linkedin_connections e) as [[|c cs]|]; reflexivity.
Qed.

Lemma non_numeric_connection_count_raises_witness :
  Enhanced._assess_enhanced_confidence Samples.enhanced_text_count
  = Raise "'>=' not supported between instances of 'str' and 'int'".
Proof.
  apply (non_numeric_connection_count_raises Samples.enhanced_text_count
           Samples.profile_with_text_count).
  - reflexivity.
  - reflexivity.
  - reflexivity.
  - discriminate.
  - intros a Ha _. injection Ha as <-. discriminate.
Defined.

(** *** Mutual-connection statistics *)

(** The integer division behind the average, on values where it is known:
    an exact quotient, a repeating one, a tie rounded to even, and an
    operand beyond 63 bits. *)
Example true_div_values :
  true_div 7 2 = 3.5%float
  /\ true_div 1 3 = PrimFloat.div 1 3
  /\ true_div (2 ^ 53 + 1) 1 = 9007199254740992%float
  /\ true_div (2 ^ 63) 1 = 9223372036854775808%float
  /\ true_div (3 * 2 ^ 60 + 1) 3 = 1152921504606846976%float.
Proof. repeat split; vm_compute; reflexivity. Qed.

Lemma bands_partition (l : list Z) :
  Forall (fun c => 0 < c) l ->
  Enhanced.count_where (fun c => c >=? 10) l
  + Enhanced.count_where (fun c => (5 <=? c) && (c <? 10)) l
  + Enhanced.count_where (fun c => (1 <=? c) && (c <? 5)) l
  = Z.of_nat (length l).
Proof.
  unfold Enhanced.count_where.
  induction 1 as [|c l Hc _ IH]; [reflexivity|].
  cbn [List.filter length].
  destruct (Z.geb_spec c 10), (Z.leb_spec 5 c), (Z.ltb_spec c 10),
           (Z.leb_spec 1 c), (Z.ltb_spec c 5);
    cbn [andb length]; lia.
Qed.

Lemma foldl_max_bounds (cs : list Z) (c : Z) :
  c <= foldl Z.max c cs
  /\ Forall (fun x => x <= foldl Z.max c cs) cs
  /\ (foldl Z.max c cs = c \/ In (foldl Z.max c cs) cs).
Proof.
  revert c. induction cs as [|x cs IH]; intros c.
  - cbn. split; [lia|]. split; [constructor | now left].
  - cbn [foldl]. destruct (IH (Z.max c x)) as (Hle & Hall & Hin).
    split; [lia|]. split.
    + constructor; [lia | exact Hall].
    + destruct Hin as [Heq|Hin]; [|right; now right].
      rewrite Heq. destruct (Z.max_spec c x) as [[_ ->]|[_ ->]];
        [right; now left | now left].
Qed.

(** X17: the mutual-connection statistics look only at connections with a
    positive count.  They are empty exactly when there is none; otherwise
    the high (10 and more), medium (5 to 9) and low (1 to 4) bands split
    those connections without overlap or remainder, and the reported
    maximum is at least 1, bounds every connection's count and is the
    count of one of them. *)
Theorem mutual_bands_split_positive_counts
    (connections : list Enhanced.NetworkConnection) :
  match Enhanced._analyze_mutual_connections connections with
  | None =>
      Forall (fun conn => Enhanced.mutual_connections conn <= 0) connections
  | Some s =>
      Enhanced.high_mutual_count s + Enhanced.medium_mutual_count s
      + Enhanced.low_mutual_count s
      = Z.of_nat (length (List.filter
                            (fun conn => Enhanced.mutual_connections conn >? 0)
                            connections))
      /\ 0 <= Enhanced.high_mutual_count s
      /\ 0 <= Enhanced.medium_mutual_count s
      /\ 0 <= Enhanced.low_mutual_count s
      /\ 1 <= Enhanced.max_mutual_connections s
      /\ Forall (fun conn => Enhanced.mutual_connections conn
                             <= Enhanced.max_mutual_connections s)
           connections
      /\ Exists (fun conn => Enhanced.mutual_connections conn
                             = Enhanced.max_mutual_connections s)
           connections
  end.
Proof.
  unfold Enhanced._analyze_mutual_connections. cbv zeta.
  set (pos := fun conn => Enhanced.mutual_connections conn >? 0).
  assert (Hpos : Forall (fun c => 0 < c)
                   (Enhanced.mutual_connections <$> List.filter pos connections)).
  { apply Forall_forall. intros c Hc.
    apply list_elem_of_fmap in Hc as (conn & -> & Hconn).
    apply list_elem_of_In, filter_In in Hconn as [_ Hp].
    unfold pos in Hp. lia. }
  assert (Hcover : forall conn, In conn connections ->
            Enhanced.mutual_connections conn <= 0
            \/ In (Enhanced.mutual_connections conn)
                 (Enhanced.mutual_connections <$> List.filter pos connections)).
  { intros conn Hin.
    destruct (Z.gtb_spec (Enhanced.mutual_connections conn) 0) as [Hgt|Hle];
      [right | left; lia].
    apply list_elem_of_In, list_elem_of_fmap. exists conn. split; [reflexivity|].
    apply list_elem_of_In, filter_In. split; [exact Hin|].
    unfold pos. lia. }
  pose proof (bands_partition _ Hpos) as Hbands.
  destruct (Enhanced.mutual_connections <$> List.filter pos connections)
    as [|c cs] eqn:Hcounts.
  - apply List.Forall_forall. intros conn Hin.
    destruct (Hcover conn Hin) as [Hle|[]]. exact Hle.
  - cbn [Enhanced.high_mutual_count Enhanced.medium_mutual_count
         Enhanced.low_mutual_count Enhanced.max_mutual_connections].
    destruct (foldl_max_bounds cs c) as (Hc & Hall & Hmax).
    assert (Hc0 : 0 < c) by (inversion Hpos; assumption).
    split.
    { rewrite Hbands, <- Hcounts, length_fmap. reflexivity. }
    split; [unfold Enhanced.count_where; lia|].
    split; [unfold Enhanced.count_where; lia|].
    split; [unfold Enhanced.count_where; lia|].
    split; [lia|]. split.
    + apply List.Forall_forall. intros conn Hin.
      destruct (Hcover conn Hin) as [Hle|[<-|Hin']]; [lia | lia |].
      rewrite List.Forall_forall in Hall. apply Hall, Hin'.
    + assert (Hel : In (foldl Z.max c cs)
                      (Enhanced.mutual_connections
                         <$> List.filter pos connections)).
      { rewrite Hcounts. destruct Hmax as [->|Hin]; [now left | now right]. }
      apply list_elem_of_In, list_elem_of_fmap in Hel as (conn & Heq & Hconn).
      apply list_elem_of_In, filter_In in Hconn as [Hin _].
      apply List.Exists_exists. exists conn. split; [exact Hin|].
      symmetry. exact Heq.
Qed.
